(** * speedtest-exporter: the probe runner and the refresh cache of [main.py]

    A shallow embedding of [run_speedtest] and [record_speedtest] and of the
    helpers they call.  Python objects coming out of [json.loads] are an
    inductive type, exceptions are data, and the module's globals, the
    Prometheus gauges, the log, the wall clock and the list of started tool
    processes form an explicit [World] threaded through a state-and-exception
    monad. *)

From Stdlib Require Import ZArith List String Ascii Bool Lia DecimalString.
From Stdlib Require Import RelationClasses.
From Stdlib Require Import Floats.SpecFloat.
Import ListNotations.

Set Warnings "-register-all".

Local Open Scope string_scope.
Local Open Scope Z_scope.

(** ** Python values *)

(** Binary64, as [Floats.SpecFloat] specifies it. *)
Definition float : Type := spec_float.

Definition fmul (x y : float) : float := SFmul 53 1024 x y.
Definition fdiv (x y : float) : float := SFdiv 53 1024 x y.

(** The integer [n] rounded to the nearest binary64 (ties to even); an
    infinity when [n] is out of range. *)
Definition float_of_Z (n : Z) : float := binary_normalize 53 1024 n 0 false.

(** What [json.loads] can build. A [dict] keeps its entries in order and
    is read by its first matching key. *)
Inductive value : Type :=
| VNone
| VBool (b : bool)
| VInt (n : Z)
| VFloat (x : float)
| VStr (s : string)
| VList (items : list value)
| VDict (entries : list (string * value)).

(** [subprocess.check_output] hands back [bytes]. *)
Definition bytes : Type := list Byte.byte.

(** The exceptions that the code of [main.py] can meet. *)
Inductive exn : Type :=
| CalledProcessError (returncode : Z) (output : bytes)
| TimeoutExpired
| OSError
| ValueError
| KeyError (key : string)
| TypeError
| OverflowError
| RecursionError.

Inductive res (A : Type) : Type :=
| Ret (a : A)
| Raise (e : exn).
Arguments Ret {A} a.
Arguments Raise {A} e.

(** What [json.loads] makes of a text: a value, or the [ValueError] that
    it raises on a text that is not JSON, or the [RecursionError] that it
    raises on a text nested deeper than the interpreter goes. *)
Inductive parsed : Type :=
| Parsed (v : value)
| NotJSON
| TooDeep.

(** Library routines that the program calls and whose code is not part of
    the repository. The two string readers answer [None] where Python
    raises [ValueError]. *)
Class Python : Type := {
  json_loads : bytes -> parsed;
  int_of_str : string -> option Z;
  float_of_str : string -> option float;
  py_str : value -> string;
  py_round : float -> Z -> float
}.

(** ** The world the handler runs in *)

(** The six gauges of the module, by their global names. [Gauge.set]
    stores [float(value)]. *)
Record Registry : Type := {
  server : float;
  jitter : float;
  ping : float;
  download_speed : float;
  upload_speed : float;
  status : float
}.

Inductive level : Type := ERROR | INFO.

(** How one call of [check_output] ends: the tool exits, or it is still
    running when the timeout is over, or it cannot be started, or it is
    started and the wait for it is refused, the timeout being more than the
    wait can take. *)
Inductive ending : Type :=
| Exit0 (out : bytes)
| ExitFail (code : Z) (out : bytes)
| TimedOut
| SpawnFailed
| Refused.

Record run : Type := { elapsed : Z; how : ending }.

Definition command : Type := (list string * option Z)%type.

(** The process and its surroundings. [environ] holds the environment
    variables and [tool k cmd timeout] is what the run number [k] of the
    tool does when it is started with [cmd] and [timeout]. The clock counts
    seconds: [time.time()] reads it, it moves on while the tool runs and
    between two requests, and the other statements take no time. *)
Record World : Type := {
  (* the surroundings: read, never written *)
  environ : string -> option string;
  tool : nat -> list string -> option Z -> run;
  (* what the program reads and writes *)
  clock : Z;
  speedtest_cache_timeout : Z;
  registry : Registry;
  logged : list (level * string);
  spawned : list command
}.

Definition with_clock (t : Z) (w : World) : World :=
  {| environ := environ w; tool := tool w; clock := t;
     speedtest_cache_timeout := speedtest_cache_timeout w;
     registry := registry w; logged := logged w; spawned := spawned w |}.

Definition with_cache_timeout (t : Z) (w : World) : World :=
  {| environ := environ w; tool := tool w; clock := clock w;
     speedtest_cache_timeout := t;
     registry := registry w; logged := logged w; spawned := spawned w |}.

Definition with_registry (r : Registry) (w : World) : World :=
  {| environ := environ w; tool := tool w; clock := clock w;
     speedtest_cache_timeout := speedtest_cache_timeout w;
     registry := r; logged := logged w; spawned := spawned w |}.

Definition with_logged (l : list (level * string)) (w : World) : World :=
  {| environ := environ w; tool := tool w; clock := clock w;
     speedtest_cache_timeout := speedtest_cache_timeout w;
     registry := registry w; logged := l; spawned := spawned w |}.

Definition with_spawned (l : list command) (w : World) : World :=
  {| environ := environ w; tool := tool w; clock := clock w;
     speedtest_cache_timeout := speedtest_cache_timeout w;
     registry := registry w; logged := logged w; spawned := l |}.

(** ** State and exceptions *)

Definition M (A : Type) : Type := World -> res A * World.

Class Monad (F : Type -> Type) : Type := {
  ret : forall {A}, A -> F A;
  bind : forall {A B}, F A -> (A -> F B) -> F B
}.

#[global] Instance Monad_res : Monad res := {
  ret := fun A a => Ret a;
  bind := fun A B r k => match r with Ret a => k a | Raise e => Raise e end
}.

#[global] Instance Monad_M : Monad M := {
  ret := fun A a w => (Ret a, w);
  bind := fun A B m k w =>
    match m w with
    | (Ret a, w') => k a w'
    | (Raise e, w') => (Raise e, w')
    end
}.

Declare Scope py_scope.
Delimit Scope py_scope with py.
Notation "x <- m ;; k" := (bind m (fun x => k))
  (at level 61, m at next level, right associativity) : py_scope.
Notation "m ;; k" := (bind m (fun _ => k))
  (at level 61, right associativity) : py_scope.
Local Open Scope py_scope.

Definition raise {A : Type} (e : exn) : M A := fun w => (Raise e, w).

Definition lift {A : Type} (r : res A) : M A := fun w => (r, w).

(** [try: m  except ...: h], where [h] answers [None] for the exceptions
    that no clause catches. *)
Definition try_except {A : Type} (m : M A) (h : exn -> option (M A)) : M A :=
  fun w =>
    match m w with
    | (Ret a, w') => (Ret a, w')
    | (Raise e, w') =>
        match h e with
        | Some k => k w'
        | None => (Raise e, w')
        end
    end.

(** ** Built-in operations on values *)

Fixpoint is_prefix (p s : string) : bool :=
  match p, s with
  | EmptyString, _ => true
  | String a p', String b s' => Ascii.eqb a b && is_prefix p' s'
  | String _ _, EmptyString => false
  end.

Fixpoint is_substring (p s : string) : bool :=
  is_prefix p s ||
  match s with
  | EmptyString => false
  | String _ s' => is_substring p s'
  end.

Definition is_str (k : string) (v : value) : bool :=
  match v with
  | VStr s => String.eqb s k
  | _ => false
  end.

Fixpoint lookup (k : string) (entries : list (string * value)) : option value :=
  match entries with
  | [] => None
  | (k', v) :: rest => if String.eqb k' k then Some v else lookup k rest
  end.

(** [k in v] for a string [k]. *)
Definition py_contains (k : string) (v : value) : res bool :=
  match v with
  | VDict entries =>
      Ret (match lookup k entries with Some _ => true | None => false end)
  | VStr s => Ret (is_substring k s)
  | VList items => Ret (existsb (is_str k) items)
  | VNone | VBool _ | VInt _ | VFloat _ => Raise TypeError
  end.

(** [v[k]] for a string [k]. *)
Definition py_getitem (v : value) (k : string) : res value :=
  match v with
  | VDict entries =>
      match lookup k entries with
      | Some x => Ret x
      | None => Raise (KeyError k)
      end
  | _ => Raise TypeError
  end.

(** [v == k] for a string [k]. *)
Definition py_eq_str (v : value) (k : string) : bool := is_str k v.

(** Truncation of a float toward zero, as [int] does. *)
Definition float_trunc (x : float) : res Z :=
  match x with
  | S754_zero _ => Ret 0
  | S754_finite s m e =>
      let a := if 0 <=? e then Z.shiftl (Zpos m) e else Z.shiftr (Zpos m) (- e) in
      Ret (if s then - a else a)
  | S754_infinity _ => Raise OverflowError
  | S754_nan => Raise ValueError
  end.

(** [int(v)]. *)
Definition py_int `{Python} (v : value) : res Z :=
  match v with
  | VInt n => Ret n
  | VBool b => Ret (Z.b2z b)
  | VFloat x => float_trunc x
  | VStr s =>
      match int_of_str s with
      | Some n => Ret n
      | None => Raise ValueError
      end
  | VNone | VList _ | VDict _ => Raise TypeError
  end.

(** [float(n)] for an [int]. *)
Definition int_to_float (n : Z) : res float :=
  match float_of_Z n with
  | S754_infinity _ => Raise OverflowError
  | x => Ret x
  end.

(** [float(v)]. *)
Definition py_float `{Python} (v : value) : res float :=
  match v with
  | VInt n => int_to_float n
  | VBool b => Ret (float_of_Z (Z.b2z b))
  | VFloat x => Ret x
  | VStr s =>
      match float_of_str s with
      | Some x => Ret x
      | None => Raise ValueError
      end
  | VNone | VList _ | VDict _ => Raise TypeError
  end.

Inductive number : Type :=
| NInt (n : Z)
| NFloat (x : float).

Definition as_number (v : value) : option number :=
  match v with
  | VInt n => Some (NInt n)
  | VBool b => Some (NInt (Z.b2z b))
  | VFloat x => Some (NFloat x)
  | _ => None
  end.

Definition number_to_float (n : number) : res float :=
  match n with
  | NInt k => int_to_float k
  | NFloat x => Ret x
  end.

Fixpoint repeat_string (s : string) (n : nat) : string :=
  match n with
  | O => EmptyString
  | S n' => s ++ repeat_string s n'
  end.

Fixpoint repeat_list {A : Type} (l : list A) (n : nat) : list A :=
  match n with
  | O => []
  | S n' => (l ++ repeat_list l n')%list
  end.

(** A [str] or a [list] times an [int]. *)
Definition seq_repeat (v : value) (n : Z) : res value :=
  match v with
  | VStr s => Ret (VStr (repeat_string s (Z.to_nat n)))
  | VList items => Ret (VList (repeat_list items (Z.to_nat n)))
  | _ => Raise TypeError
  end.

(** [a * b]. *)
Definition py_mul (a b : value) : res value :=
  match as_number a, as_number b with
  | Some (NInt x), Some (NInt y) => Ret (VInt (x * y))
  | Some x, Some y =>
      fx <- number_to_float x ;;
      fy <- number_to_float y ;;
      Ret (VFloat (fmul fx fy))
  | None, Some (NInt n) => seq_repeat a n
  | Some (NInt n), None => seq_repeat b n
  | _, _ => Raise TypeError
  end.

(** [round(v, ndigits)] with [0 <= ndigits]. *)
Definition py_round_ `{Python} (v : value) (ndigits : Z) : res value :=
  match v with
  | VFloat x => Ret (VFloat (py_round x ndigits))
  | VInt n => Ret (VInt n)
  | VBool b => Ret (VInt (Z.b2z b))
  | _ => Raise TypeError
  end.

(** [10**-6]: the binary64 nearest to one millionth. *)
Definition ten_pow_minus_6 : float := S754_finite false 4722366482869645 (-72).

(** ** Actions on the world *)

Definition log_error (msg : string) : M unit :=
  fun w => (Ret tt, with_logged (logged w ++ [(ERROR, msg)])%list w).

Definition log_info (msg : string) : M unit :=
  fun w => (Ret tt, with_logged (logged w ++ [(INFO, msg)])%list w).

(** [time.time()]. *)
Definition time_time : M Z := fun w => (Ret (clock w), w).

(** Reading and writing the global [speedtest_cache_timeout]. *)
Definition get_cache_timeout : M Z :=
  fun w => (Ret (speedtest_cache_timeout w), w).

Definition set_cache_timeout (t : Z) : M unit :=
  fun w => (Ret tt, with_cache_timeout t w).

(** What [os.getenv(key, default)] reads in [w]. *)
Definition env_value (w : World) (key : string) (default : value) : value :=
  match environ w key with
  | Some s => VStr s
  | None => default
  end.

Definition os_getenv (key : string) (default : value) : M value :=
  fun w => (Ret (env_value w key default), w).

(** The wait for the tool takes its timeout in milliseconds, as a C
    [int]: from 2147484 seconds on it raises [OverflowError]. *)
Definition too_long (timeout : option Z) : bool :=
  match timeout with
  | Some seconds => 2147484 <=? seconds
  | None => false
  end.

(** The run that the next call of [check_output] gets: what the tool does,
    unless the tool starts and the wait for it is refused. *)
Definition next_run (w : World) (cmd : list string) (timeout : option Z) : run :=
  let r := tool w (List.length (spawned w)) cmd timeout in
  match how r with
  | SpawnFailed => r
  | Exit0 _ | ExitFail _ _ | TimedOut | Refused =>
      if too_long timeout then {| elapsed := elapsed r; how := Refused |} else r
  end.

(** The world once that run is over: the process is on record and the
    clock has moved on by the time the run took. *)
Definition started (w : World) (cmd : list string) (timeout : option Z) : World :=
  with_clock (clock w + elapsed (next_run w cmd timeout))
    (with_spawned (spawned w ++ [(cmd, timeout)])%list w).

(** [subprocess.check_output(cmd, timeout=timeout)]: the tool is run, and
    the call hands back the output of a run that exits with status zero
    and raises otherwise. *)
Definition check_output (cmd : list string) (timeout : option Z) : M bytes :=
  fun w =>
    let w' := started w cmd timeout in
    match how (next_run w cmd timeout) with
    | Exit0 out => (Ret out, w')
    | ExitFail code out => (Raise (CalledProcessError code out), w')
    | TimedOut => (Raise TimeoutExpired, w')
    | SpawnFailed => (Raise OSError, w')
    | Refused => (Raise OverflowError, w')
    end.

Inductive gauge : Type :=
| g_server | g_jitter | g_ping | g_download_speed | g_upload_speed | g_status.

Definition store (g : gauge) (x : float) (r : Registry) : Registry :=
  match g with
  | g_server =>
      {| server := x; jitter := jitter r; ping := ping r;
         download_speed := download_speed r; upload_speed := upload_speed r;
         status := status r |}
  | g_jitter =>
      {| server := server r; jitter := x; ping := ping r;
         download_speed := download_speed r; upload_speed := upload_speed r;
         status := status r |}
  | g_ping =>
      {| server := server r; jitter := jitter r; ping := x;
         download_speed := download_speed r; upload_speed := upload_speed r;
         status := status r |}
  | g_download_speed =>
      {| server := server r; jitter := jitter r; ping := ping r;
         download_speed := x; upload_speed := upload_speed r;
         status := status r |}
  | g_upload_speed =>
      {| server := server r; jitter := jitter r; ping := ping r;
         download_speed := download_speed r; upload_speed := x;
         status := status r |}
  | g_status =>
      {| server := server r; jitter := jitter r; ping := ping r;
         download_speed := download_speed r; upload_speed := upload_speed r;
         status := x |}
  end.

Definition put_gauge (g : gauge) (x : float) : M unit :=
  fun w => (Ret tt, with_registry (store g x (registry w)) w).

(** [g.set(v)] of [prometheus_client]: the gauge takes [float(v)]. *)
Definition gauge_set `{Python} (g : gauge) (v : value) : M unit :=
  x <- lift (py_float v) ;;
  put_gauge g x.

(** [make_wsgi_app()]: what a scrape is answered with is the registry. *)
Definition make_wsgi_app : M Registry := fun w => (Ret (registry w), w).

(** ** The program *)

Definition bytes_to_bits (bytes_per_sec : value) : res value :=
  py_mul bytes_per_sec (VInt 8).

Definition bits_to_megabits `{Python} (bits_per_sec : value) : res value :=
  p <- py_mul bits_per_sec (VFloat ten_pow_minus_6) ;;
  megabits <- py_round_ p 2 ;;
  ret megabits.

Definition py_json_loads `{Python} (json_data : bytes) : M value :=
  match json_loads json_data with
  | Parsed v => ret v
  | NotJSON => raise ValueError
  | TooDeep => raise RecursionError
  end.

Definition is_json `{Python} (json_data : bytes) : M bool :=
  try_except
    (_ <- py_json_loads json_data ;; ret true)
    (fun e => match e with
              | ValueError => Some (ret false)
              | _ => None
              end).

(** The tuple that [run_speedtest] returns. *)
Definition tuple6 : Type := (value * value * value * value * value * value)%type.

Definition zeros : tuple6 := (VInt 0, VInt 0, VInt 0, VInt 0, VInt 0, VInt 0).

Definition base_cmd : list string :=
  ["speedtest"; "--format=json-pretty"; "--progress=no";
   "--accept-license"; "--accept-gdpr"].

(** The command line: [--server-id] is appended when [server_id] is truthy. *)
Definition build_cmd (server_id : option string) : list string :=
  match server_id with
  | Some (String a s) => (base_cmd ++ [("--server-id=" ++ String a s)%string])%list
  | Some EmptyString | None => base_cmd
  end.

(** The last two lines of [run_speedtest]. *)
Definition no_result : M tuple6 :=
  log_error "Successfull speedtest had no json result." ;;
  ret zeros.

(** Lines 80 to 98: what is made of the parsed output. *)
Definition read_data `{Python} (data : value) : M tuple6 :=
  has_error <- lift (py_contains "error" data) ;;
  if has_error : bool then
    log_error "Socker error while speedtest." ;;
    e <- lift (py_getitem data "error") ;;
    log_error (py_str e) ;;
    ret zeros
  else
    has_type <- lift (py_contains "type" data) ;;
    if has_type : bool then
      ty <- lift (py_getitem data "type") ;;
      (if py_eq_str ty "log" then
         ts <- lift (py_getitem data "timestamp") ;;
         msg <- lift (py_getitem data "message") ;;
         log_info (py_str ts ++ " - " ++ py_str msg)%string
       else ret tt) ;;
      ty' <- lift (py_getitem data "type") ;;
      if py_eq_str ty' "result" then
        srv <- lift (py_getitem data "server") ;;
        id <- lift (py_getitem srv "id") ;;
        actual_server <- lift (py_int id) ;;
        png <- lift (py_getitem data "ping") ;;
        actual_jitter <- lift (py_getitem png "jitter") ;;
        png' <- lift (py_getitem data "ping") ;;
        actual_ping <- lift (py_getitem png' "latency") ;;
        dl <- lift (py_getitem data "download") ;;
        dlb <- lift (py_getitem dl "bandwidth") ;;
        actual_download_speed <- lift (bytes_to_bits dlb) ;;
        ul <- lift (py_getitem data "upload") ;;
        ulb <- lift (py_getitem ul "bandwidth") ;;
        actual_upload_speed <- lift (bytes_to_bits ulb) ;;
        ret (VInt actual_server, actual_jitter, actual_ping,
             actual_download_speed, actual_upload_speed, VInt 1)
      else no_result
    else no_result.

(** Lines 77 to 98: the output is looked at. *)
Definition read_output `{Python} (output : bytes) : M tuple6 :=
  j <- is_json output ;;
  if j : bool then
    data <- py_json_loads output ;;
    read_data data
  else no_result.

(** Lines 68 to 75: the tool is run; a run that exits with a non-zero
    status leaves its output to be read, unless that output is not JSON,
    in which case the function returns at once ([inr]). *)
Definition run_tool `{Python} (cmd : list string) (timeout : option Z)
  : M (bytes + tuple6) :=
  try_except
    (output <- check_output cmd timeout ;; ret (inl output))
    (fun e => match e with
              | CalledProcessError _ output =>
                  Some (j <- is_json output ;;
                        if negb j then
                          log_error "Speedtest CLI error not in JSON format." ;;
                          ret (inr zeros)
                        else ret (inl output))
              | _ => None
              end).

Definition run_speedtest `{Python} (server_id : option string) (timeout : option Z)
  : M tuple6 :=
  let cmd := build_cmd server_id in
  o <- run_tool cmd timeout ;;
  match o with
  | inr t => ret t
  | inl output => read_output output
  end.

(** [os.getenv] answers a [str] or the default [None]. *)
Definition as_server (v : value) : option string :=
  match v with
  | VStr s => Some s
  | _ => None
  end.

(** Lines 111 to 118: the log line and the six gauges. *)
Definition publish `{Python} (t : tuple6) : M unit :=
  let '(r_server, r_jitter, r_ping, r_download, r_upload, r_status) := t in
  d <- lift (bits_to_megabits r_download) ;;
  u <- lift (bits_to_megabits r_upload) ;;
  log_info ("Server=" ++ py_str r_server ++ " Jitter=" ++ py_str r_jitter
            ++ "ms Ping=" ++ py_str r_ping ++ "ms Download=" ++ py_str d
            ++ " Upload=" ++ py_str u)%string ;;
  gauge_set g_server r_server ;;
  gauge_set g_jitter r_jitter ;;
  gauge_set g_ping r_ping ;;
  gauge_set g_download_speed r_download ;;
  gauge_set g_upload_speed r_upload ;;
  gauge_set g_status r_status.

(** Lines 110 to 120: the body of the [if] in [record_speedtest]. The sum
    of line 120 is that of a float and an [int]: the [int] is made a float
    first, which raises [OverflowError] when it does not fit. *)
Definition refresh `{Python} (cache_timeout : Z) (speedtest_server : option string)
    (speedtest_run_timeout : Z) : M unit :=
  t <- run_speedtest speedtest_server (Some speedtest_run_timeout) ;;
  publish t ;;
  now <- time_time ;;
  _ <- lift (int_to_float cache_timeout) ;;
  set_cache_timeout (now + cache_timeout).

Definition record_speedtest `{Python} : M Registry :=
  c <- os_getenv "SPEEDTEST_CACHE_TIMEOUT" (VInt 900) ;;
  cache_timeout <- lift (py_int c) ;;
  s <- os_getenv "SPEEDTEST_SERVER" VNone ;;
  let speedtest_server := as_server s in
  r <- os_getenv "SPEEDTEST_RUN_TIMEOUT" (VInt 90) ;;
  speedtest_run_timeout <- lift (py_int r) ;;
  now <- time_time ;;
  deadline <- get_cache_timeout ;;
  (if deadline <? now
   then refresh cache_timeout speedtest_server speedtest_run_timeout
   else ret tt) ;;
  make_wsgi_app.

(** Lines 26 to 34: the module is loaded at [t0], with six gauges at zero
    and a deadline that is [t0]. *)
Definition loaded (env : string -> option string)
    (t : nat -> list string -> option Z -> run) (t0 : Z) : World :=
  {| environ := env; tool := t; clock := t0; speedtest_cache_timeout := t0;
     registry :=
       {| server := S754_zero false; jitter := S754_zero false;
          ping := S754_zero false; download_speed := S754_zero false;
          upload_speed := S754_zero false; status := S754_zero false |};
     logged := []; spawned := [] |}.

(** ** Vocabulary of the statements *)

(** The output of the next run of the tool, when the tool exits, with whatever status. *)
Definition tool_output (w : World) (cmd : list string) (timeout : option Z)
  : option bytes :=
  match how (next_run w cmd timeout) with
  | Exit0 out | ExitFail _ out => Some out
  | TimedOut | SpawnFailed | Refused => None
  end.

(** [data[a][b]], when both subscripts can be taken. *)
Definition field (data : value) (a b : string) : option value :=
  match py_getitem data a with
  | Ret x =>
      match py_getitem x b with
      | Ret y => Some y
      | Raise _ => None
      end
  | Raise _ => None
  end.

(** An object with [key] among its keys. *)
Definition has_key (key : string) (data : value) : bool :=
  match data with
  | VDict entries =>
      match lookup key entries with Some _ => true | None => false end
  | _ => false
  end.

(** An object whose ["type"] is [kind] and that has no ["error"] key. *)
Definition event_of_type (kind : string) (data : value) : bool :=
  match data with
  | VDict entries =>
      match lookup "error" entries, lookup "type" entries with
      | None, Some ty => py_eq_str ty kind
      | _, _ => false
      end
  | _ => false
  end.

(** The exceptions that reading the fields of a result event can raise. *)
Definition extraction_error (e : exn) : bool :=
  match e with
  | KeyError _ | ValueError | TypeError | OverflowError => true
  | _ => false
  end.


(** A number, with the float that [float()] makes of it. *)
Definition reads_as (v : value) (x : float) : Prop :=
  exists n, as_number v = Some n /\ number_to_float n = Ret x.

(** How many tool processes [m] starts from [w]. *)
Definition probes {A : Type} (m : M A) (w : World) : nat :=
  (List.length (spawned (snd (m w))) - List.length (spawned w))%nat.

(** The environment of [w] gives the cache lifetime [cache_timeout] and
    the bound [run_timeout] on a run of the tool. *)
Definition configured `{Python} (w : World) (cache_timeout run_timeout : Z) : Prop :=
  py_int (env_value w "SPEEDTEST_CACHE_TIMEOUT" (VInt 900)) = Ret cache_timeout /\
  py_int (env_value w "SPEEDTEST_RUN_TIMEOUT" (VInt 90)) = Ret run_timeout.

(** The server that the environment of [w] asks for, if any. *)
Definition target (w : World) : option string :=
  as_server (env_value w "SPEEDTEST_SERVER" VNone).

(** The command line that a refresh in [w] runs. *)
Definition probe_cmd (w : World) (run_timeout : Z) : command :=
  (build_cmd (target w), Some run_timeout).

(** Only the log may differ between [w] and [w']. *)
Definition same_but_log (w w' : World) : Prop :=
  environ w' = environ w /\ tool w' = tool w /\ clock w' = clock w /\
  speedtest_cache_timeout w' = speedtest_cache_timeout w /\
  registry w' = registry w /\ spawned w' = spawned w.

(** Only the log and the gauges may differ between [w] and [w']. *)
Definition same_but_gauges (w w' : World) : Prop :=
  environ w' = environ w /\ tool w' = tool w /\ clock w' = clock w /\
  speedtest_cache_timeout w' = speedtest_cache_timeout w /\
  spawned w' = spawned w.

(** Every world that [m] ends in is related by [R] to the one it began in. *)
Definition keeps {A : Type} (R : World -> World -> Prop) (m : M A) : Prop :=
  forall w, R w (snd (m w)).

(** The line that a refresh logs. *)
Definition refresh_line `{Python} (t : tuple6) (xd xu : float) : string :=
  let '(vs, vj, vp, _, _, _) := t in
  ("Server=" ++ py_str vs ++ " Jitter=" ++ py_str vj ++ "ms Ping="
   ++ py_str vp ++ "ms Download="
   ++ py_str (VFloat (py_round (fmul xd ten_pow_minus_6) 2)) ++ " Upload="
   ++ py_str (VFloat (py_round (fmul xu ten_pow_minus_6) 2)))%string.

(** [m] raises nothing but exceptions that [P] accepts. *)
Definition raises_only {A : Type} (P : exn -> bool) (m : M A) : Prop :=
  forall w e, fst (m w) = Raise e -> P e = true.

(** ** Requests that follow one another *)

(** Each request arrives [gap] after the previous one was answered. *)
Fixpoint serve `{Python} (gaps : list Z) (w : World) : World :=
  match gaps with
  | [] => w
  | gap :: rest =>
      serve rest (snd (record_speedtest (with_clock (clock w + gap) w)))
  end.

(** ** Requests served by several worker threads *)

(** Where a worker stands in [record_speedtest]: before line 105, before
    line 110 with its locals, before line 122, or done. *)
Inductive pc : Type :=
| AtEntry
| AtRefresh (cache_timeout : Z) (speedtest_server : option string)
            (speedtest_run_timeout : Z)
| AtReturn
| Served (r : res Registry).

(** Lines 105 to 109. *)
Definition enter `{Python} : M pc :=
  c <- os_getenv "SPEEDTEST_CACHE_TIMEOUT" (VInt 900) ;;
  cache_timeout <- lift (py_int c) ;;
  s <- os_getenv "SPEEDTEST_SERVER" VNone ;;
  let speedtest_server := as_server s in
  r <- os_getenv "SPEEDTEST_RUN_TIMEOUT" (VInt 90) ;;
  speedtest_run_timeout <- lift (py_int r) ;;
  now <- time_time ;;
  deadline <- get_cache_timeout ;;
  ret (if deadline <? now
       then AtRefresh cache_timeout speedtest_server speedtest_run_timeout
       else AtReturn).

(** One move of a worker. The refresh is one move: the moves of other
    workers fall before it or after it, and not between two of its
    statements, so that the interleavings told here are some of those that
    the threads can take. *)
Definition advance `{Python} (p : pc) : M pc :=
  match p with
  | AtEntry => enter
  | AtRefresh c s t => refresh c s t ;; ret AtReturn
  | AtReturn => r <- make_wsgi_app ;; ret (Served (Ret r))
  | Served r => ret (Served r)
  end.

(** One move of one worker; an exception ends its request. *)
Definition thread_step `{Python} (p : pc) (w : World) : pc * World :=
  match advance p w with
  | (Ret p', w') => (p', w')
  | (Raise e, w') => (Served (Raise e), w')
  end.

(** The worker at position [i] moves; nothing happens when there is none. *)
Fixpoint pool_step `{Python} (i : nat) (pool : list pc) (w : World)
  : list pc * World :=
  match pool, i with
  | [], _ => ([], w)
  | p :: rest, O => let '(p', w') := thread_step p w in (p' :: rest, w')
  | p :: rest, S i' => let '(rest', w') := pool_step i' rest w in (p :: rest', w')
  end.

(** The workers move as [schedule] says, on a clock that stands still
    between their moves. *)
Fixpoint run_schedule `{Python} (schedule : list nat) (pool : list pc) (w : World)
  : list pc * World :=
  match schedule with
  | [] => (pool, w)
  | i :: later => let '(pool', w') := pool_step i pool w in run_schedule later pool' w'
  end.

(** The workers move as [schedule] says, each move after the time that
    comes with it. *)
Fixpoint run_timed `{Python} (schedule : list (Z * nat)) (pool : list pc) (w : World)
  : list pc * World :=
  match schedule with
  | [] => (pool, w)
  | (gap, i) :: later =>
      let '(pool', w') := pool_step i pool (with_clock (clock w + gap) w) in
      run_timed later pool' w'
  end.

Definition is_served (p : pc) : bool :=
  match p with
  | Served _ => true
  | _ => false
  end.

(** A worker that is past its refresh. *)
Definition settled (p : pc) : bool :=
  match p with
  | AtReturn | Served _ => true
  | AtEntry | AtRefresh _ _ _ => false
  end.

(** Worker 0 runs to its end, then worker 1, and so on. *)
Fixpoint one_by_one (first : nat) (n : nat) : list nat :=
  match n with
  | O => []
  | S n' => first :: first :: first :: one_by_one (S first) n'
  end.

(** ** A stand-in for the library routines, to run the program on examples *)

Module Sample.

(** Text written with apostrophes where JSON has double quotes. *)
Fixpoint requote (s : string) : string :=
  match s with
  | EmptyString => EmptyString
  | String c s' =>
      String (if Ascii.eqb c "'" then ascii_of_nat 34 else c) (requote s')
  end.

Definition text (s : string) : bytes := list_byte_of_string (requote s).

Fixpoint bytes_eqb (a b : bytes) : bool :=
  match a, b with
  | [], [] => true
  | x :: a', y :: b' => Byte.eqb x y && bytes_eqb a' b'
  | _, _ => false
  end.

(** 1.5 and the binary64 nearest to 10.2. *)
Definition f1_5 : float := S754_finite false 6755399441055744 (-52).
Definition f10_2 : float := S754_finite false 5742089524897382 (-49).

Definition result_text : bytes :=
  text "{'type':'result','server':{'id':1234},'ping':{'jitter':1.5,'latency':10.2},'download':{'bandwidth':12500000},'upload':{'bandwidth':1250000}}".

Definition result_value : value :=
  VDict [("type", VStr "result");
         ("server", VDict [("id", VInt 1234)]);
         ("ping", VDict [("jitter", VFloat f1_5); ("latency", VFloat f10_2)]);
         ("download", VDict [("bandwidth", VInt 12500000)]);
         ("upload", VDict [("bandwidth", VInt 1250000)])].

Definition log_text : bytes :=
  text "{'type':'log','timestamp':'2024-05-01T10:00:00Z','message':'Starting test'}".

Definition log_value : value :=
  VDict [("type", VStr "log");
         ("timestamp", VStr "2024-05-01T10:00:00Z");
         ("message", VStr "Starting test")].

Definition bare_log_text : bytes := text "{'type':'log'}".

Definition bare_log_value : value := VDict [("type", VStr "log")].

Definition error_text : bytes := text "{'error':'Cannot open socket'}".

Definition error_value : value := VDict [("error", VStr "Cannot open socket")].

Definition no_ping_text : bytes :=
  text "{'type':'result','server':{'id':1234},'download':{'bandwidth':12500000},'upload':{'bandwidth':1250000}}".

Definition no_ping_value : value :=
  VDict [("type", VStr "result");
         ("server", VDict [("id", VInt 1234)]);
         ("download", VDict [("bandwidth", VInt 12500000)]);
         ("upload", VDict [("bandwidth", VInt 1250000)])].

Definition garbage_text : bytes := text "speedtest: command failed".

(** The outputs that the examples use, with what [json.loads] makes of
    them; [garbage_text] is not in the table. *)
Definition table : list (bytes * value) :=
  [(result_text, result_value); (log_text, log_value);
   (bare_log_text, bare_log_value); (error_text, error_value);
   (no_ping_text, no_ping_value)].

Fixpoint find (b : bytes) (t : list (bytes * value)) : option value :=
  match t with
  | [] => None
  | (b', v) :: rest => if bytes_eqb b' b then Some v else find b rest
  end.

Definition show (v : value) : string :=
  match v with
  | VNone => "None"
  | VBool true => "True"
  | VBool false => "False"
  | VInt n => DecimalString.NilZero.string_of_int (Z.to_int n)
  | VStr s => s
  | VFloat _ => "<float>"
  | VList _ => "<list>"
  | VDict _ => "<dict>"
  end.

Definition read_int (s : string) : option Z :=
  option_map Z.of_int (DecimalString.NilZero.int_of_string s).

Definition parse (t : list (bytes * value)) (b : bytes) : parsed :=
  match find b t with
  | Some v => Parsed v
  | None => NotJSON
  end.

Definition python : Python :=
  {| json_loads := parse table;
     int_of_str := read_int;
     float_of_str := fun _ => None;
     py_str := show;
     py_round := fun x _ => x |}.

Definition zero_registry : Registry :=
  {| server := S754_zero false; jitter := S754_zero false;
     ping := S754_zero false; download_speed := S754_zero false;
     upload_speed := S754_zero false; status := S754_zero false |}.


(** Every run of the tool takes [seconds] and ends with [e]. *)
Definition always (seconds : Z) (e : ending) : nat -> list string -> option Z -> run :=
  fun _ _ _ => {| elapsed := seconds; how := e |}.

Definition no_env : string -> option string := fun _ => None.

(** [SPEEDTEST_CACHE_TIMEOUT] is [ttl], nothing else is set. *)
Definition ttl_env (ttl : string) : string -> option string :=
  fun key => if String.eqb key "SPEEDTEST_CACHE_TIMEOUT" then Some ttl else None.

(** A world at time [now] whose cache runs out at [deadline]. *)
Definition world (env : string -> option string)
    (t : nat -> list string -> option Z -> run) (now deadline : Z) : World :=
  {| environ := env; tool := t; clock := now;
     speedtest_cache_timeout := deadline; registry := zero_registry;
     logged := []; spawned := [] |}.


(** The default configuration, a tool that answers after [seconds]. *)
Definition answering (seconds : Z) (e : ending) (now deadline : Z) : World :=
  world no_env (always seconds e) now deadline.

(** The registry after a refresh that read [result_text]. *)
Definition measured : Registry :=
  {| server := float_of_Z 1234; jitter := f1_5; ping := f10_2;
     download_speed := float_of_Z 100000000;
     upload_speed := float_of_Z 10000000;
     status := float_of_Z 1 |}.



End Sample.

(** ** More vocabulary *)

(** The server that a command line names: an empty name counts as none. *)
Definition pinned (server_id : option string) : option string :=
  match server_id with
  | Some (String a s) => Some (String a s)
  | Some EmptyString | None => None
  end.

(** A JSON object. *)
Definition is_object (v : value) : bool :=
  match v with
  | VDict _ => true
  | _ => false
  end.

(** The two shapes of the tuples that [run_speedtest] builds: the zeros,
    and an integer server with the status 1. *)
Definition zeros_or_success (t : tuple6) : Prop :=
  t = zeros \/ exists n j l d u, t = (VInt n, j, l, d, u, VInt 1).

(** [m] returns nothing but values that [P] accepts. *)
Definition returns_only {A : Type} (P : A -> Prop) (m : M A) : Prop :=
  forall w a, fst (m w) = Ret a -> P a.

(** Only the log may differ between [w] and [w'], and it has grown. *)
Definition logged_more (w w' : World) : Prop :=
  same_but_log w w' /\ exists lines, logged w' = (logged w ++ lines)%list.

(** The registry with its six gauges at zero. *)
Definition all_zero : Registry :=
  {| server := S754_zero false; jitter := S754_zero false;
     ping := S754_zero false; download_speed := S754_zero false;
     upload_speed := S754_zero false; status := S754_zero false |}.

(** The time that passes over the requests of [gaps]. *)
Definition total (gaps : list Z) : Z := fold_right Z.add 0 gaps.

(** The workers that have not yet got past their refresh. *)
Definition unsettled (pool : list pc) : nat :=
  List.length (filter (fun p => negb (settled p)) pool).

(** ** More outputs of the tool, for the examples *)

Module Cases.

Definition number_text : bytes := Sample.text "42".

Definition null_text : bytes := Sample.text "null".

Definition string_text : bytes := Sample.text "'no servers'".

Definition error_string_text : bytes := Sample.text "'socket error'".

Definition other_text : bytes := Sample.text "{'type':'testStart'}".

Definition other_value : value := VDict [("type", VStr "testStart")].

(** A result event that also carries an error. *)
Definition error_result_text : bytes :=
  Sample.text "{'type':'result','error':'Timeout','server':{'id':1234},'ping':{'jitter':1.5,'latency':10.2},'download':{'bandwidth':12500000},'upload':{'bandwidth':1250000}}".

Definition error_result_value : value :=
  VDict [("type", VStr "result");
         ("error", VStr "Timeout");
         ("server", VDict [("id", VInt 1234)]);
         ("ping", VDict [("jitter", VFloat Sample.f1_5);
                         ("latency", VFloat Sample.f10_2)]);
         ("download", VDict [("bandwidth", VInt 12500000)]);
         ("upload", VDict [("bandwidth", VInt 1250000)])].

(** A result event whose jitter is [null]. *)
Definition null_jitter_text : bytes :=
  Sample.text "{'type':'result','server':{'id':1234},'ping':{'jitter':null,'latency':10.2},'download':{'bandwidth':12500000},'upload':{'bandwidth':1250000}}".

Definition null_jitter_value : value :=
  VDict [("type", VStr "result");
         ("server", VDict [("id", VInt 1234)]);
         ("ping", VDict [("jitter", VNone); ("latency", VFloat Sample.f10_2)]);
         ("download", VDict [("bandwidth", VInt 12500000)]);
         ("upload", VDict [("bandwidth", VInt 1250000)])].

(** A result event whose download bandwidth is a text. *)
Definition text_bandwidth_text : bytes :=
  Sample.text "{'type':'result','server':{'id':1234},'ping':{'jitter':1.5,'latency':10.2},'download':{'bandwidth':'fast'},'upload':{'bandwidth':1250000}}".

Definition text_bandwidth_value : value :=
  VDict [("type", VStr "result");
         ("server", VDict [("id", VInt 1234)]);
         ("ping", VDict [("jitter", VFloat Sample.f1_5);
                         ("latency", VFloat Sample.f10_2)]);
         ("download", VDict [("bandwidth", VStr "fast")]);
         ("upload", VDict [("bandwidth", VInt 1250000)])].

Definition table : list (bytes * value) :=
  [(text_bandwidth_text, text_bandwidth_value);
   (number_text, VInt 42); (null_text, VNone);
   (string_text, VStr "no servers");
   (error_string_text, VStr "socket error");
   (other_text, other_value);
   (error_result_text, error_result_value);
   (null_jitter_text, null_jitter_value)] ++ Sample.table.

(** The routines of [Sample.python], with the longer table. *)
Definition python : Python :=
  {| json_loads := Sample.parse table;
     int_of_str := Sample.read_int;
     float_of_str := fun _ => None;
     py_str := Sample.show;
     py_round := fun x _ => x |}.

End Cases.

(** ** Outputs and settings at the edges *)

Module Edge.

(** A result event that carries an error and none of its fields. *)
Definition failed_result_text : bytes :=
  Sample.text "{'type':'result','error':'No servers defined'}".

Definition failed_result_value : value :=
  VDict [("type", VStr "result"); ("error", VStr "No servers defined")].

(** A result event whose server identifier is [Infinity], which
    [json.loads] reads as a float. *)
Definition infinite_id_text : bytes :=
  Sample.text "{'type':'result','server':{'id':Infinity},'ping':{'jitter':1.5,'latency':10.2},'download':{'bandwidth':12500000},'upload':{'bandwidth':1250000}}".

Definition infinite_id_value : value :=
  VDict [("type", VStr "result");
         ("server", VDict [("id", VFloat (S754_infinity false))]);
         ("ping", VDict [("jitter", VFloat Sample.f1_5);
                         ("latency", VFloat Sample.f10_2)]);
         ("download", VDict [("bandwidth", VInt 12500000)]);
         ("upload", VDict [("bandwidth", VInt 1250000)])].

(** An object whose ["error"] is [depth] arrays, one in the other. *)
Definition nested (depth : positive) : bytes :=
  (Sample.text "{'error':" ++
   Pos.iter (cons Byte.x5b)
     (Pos.iter (cons Byte.x5d) (Sample.text "}") depth) depth)%list.

Definition deep_error_text : bytes := nested 100000.

Definition opens (c : Byte.byte) : bool := Byte.eqb c Byte.x5b || Byte.eqb c Byte.x7b.

Definition closes (c : Byte.byte) : bool := Byte.eqb c Byte.x5d || Byte.eqb c Byte.x7d.

(** How deep the brackets and the braces of a text go. *)
Fixpoint deepest (b : bytes) (depth most : Z) : Z :=
  match b with
  | [] => most
  | c :: rest =>
      if opens c then deepest rest (depth + 1) (Z.max most (depth + 1))
      else if closes c then deepest rest (depth - 1) most
      else deepest rest depth most
  end.

(** The recursion limit of the interpreter, by default. *)
Definition limit : Z := 1000.

Definition table : list (bytes * value) :=
  [(failed_result_text, failed_result_value);
   (infinite_id_text, infinite_id_value)] ++ Cases.table.

(** The routines of [Cases.python], with a [json.loads] that gives up on
    a text that goes deeper than [limit]. *)
Definition python : Python :=
  {| json_loads := fun b =>
       if limit <? deepest b 0 0 then TooDeep else Sample.parse table b;
     int_of_str := Sample.read_int;
     float_of_str := fun _ => None;
     py_str := Sample.show;
     py_round := fun x _ => x |}.

(** [SPEEDTEST_RUN_TIMEOUT] is [seconds], nothing else is set. *)
Definition run_timeout_env (seconds : string) : string -> option string :=
  fun key => if String.eqb key "SPEEDTEST_RUN_TIMEOUT" then Some seconds else None.

(** The digits of [10 ** 309], more than a float can hold. *)
Definition huge : string := String "1" (repeat_string "0" 309).

End Edge.

(** * The probe runner *)

(** Unfolds the monad where a computation has been decided. *)
Ltac mrun := cbn [bind ret Monad_M Monad_res lift raise fst snd].

Section Runner.
Context `{Python}.

Lemma is_json_some out v : json_loads out = Parsed v -> is_json out = ret true.
Proof.
  intros E. unfold is_json, try_except, py_json_loads. now rewrite E.
Qed.

Lemma is_json_none out : json_loads out = NotJSON -> is_json out = ret false.
Proof.
  intros E. unfold is_json, try_except, py_json_loads. now rewrite E.
Qed.

(** [is_json] catches [ValueError] and nothing else. *)
Lemma is_json_too_deep out :
  json_loads out = TooDeep -> is_json out = raise RecursionError.
Proof.
  intros E. unfold is_json, try_except, py_json_loads. now rewrite E.
Qed.

Lemma elapsed_next_run w cmd timeout :
  elapsed (next_run w cmd timeout) =
    elapsed (tool w (List.length (spawned w)) cmd timeout).
Proof.
  unfold next_run.
  destruct (how (tool w (List.length (spawned w)) cmd timeout)), (too_long timeout);
    reflexivity.
Qed.

Lemma run_tool_exit0 w cmd timeout out :
  how (next_run w cmd timeout) = Exit0 out ->
  run_tool cmd timeout w = (Ret (inl out), started w cmd timeout).
Proof.
  intros E. unfold run_tool, try_except, check_output. mrun. now rewrite E.
Qed.

Lemma run_tool_fail_json w cmd timeout code out v :
  how (next_run w cmd timeout) = ExitFail code out ->
  json_loads out = Parsed v ->
  run_tool cmd timeout w = (Ret (inl out), started w cmd timeout).
Proof.
  intros E J. unfold run_tool, try_except, check_output. mrun. rewrite E.
  mrun. now rewrite (is_json_some _ _ J).
Qed.

Lemma run_tool_fail_garbage w cmd timeout code out :
  how (next_run w cmd timeout) = ExitFail code out ->
  json_loads out = NotJSON ->
  run_tool cmd timeout w =
    (Ret (inr zeros),
     with_logged (logged w ++ [(ERROR, "Speedtest CLI error not in JSON format.")])
       (started w cmd timeout)).
Proof.
  intros E J. unfold run_tool, try_except, check_output. mrun. rewrite E.
  mrun. now rewrite (is_json_none _ J).
Qed.

Lemma run_tool_fail_too_deep w cmd timeout code out :
  how (next_run w cmd timeout) = ExitFail code out ->
  json_loads out = TooDeep ->
  run_tool cmd timeout w = (Raise RecursionError, started w cmd timeout).
Proof.
  intros E J. unfold run_tool, try_except, check_output. mrun. rewrite E.
  mrun. now rewrite (is_json_too_deep _ J).
Qed.

Lemma read_output_too_deep w out :
  json_loads out = TooDeep -> read_output out w = (Raise RecursionError, w).
Proof.
  intros J. unfold read_output. now rewrite (is_json_too_deep _ J).
Qed.

Lemma read_output_json w out data :
  json_loads out = Parsed data -> read_output out w = read_data data w.
Proof.
  intros J. unfold read_output. rewrite (is_json_some _ _ J). mrun.
  unfold py_json_loads. now rewrite J.
Qed.

Lemma read_output_garbage w out :
  json_loads out = NotJSON -> read_output out w = no_result w.
Proof.
  intros J. unfold read_output. now rewrite (is_json_none _ J).
Qed.

(** A run that exits hands its output, when it is JSON, to [read_data]. *)
Lemma run_speedtest_reads w sid timeout out data :
  tool_output w (build_cmd sid) timeout = Some out ->
  json_loads out = Parsed data ->
  run_speedtest sid timeout w = read_data data (started w (build_cmd sid) timeout).
Proof.
  unfold tool_output. intros T J. unfold run_speedtest. mrun.
  destruct (how (next_run w (build_cmd sid) timeout)) as [o|c o| | |] eqn:E;
    try discriminate; injection T as ->.
  - rewrite (run_tool_exit0 _ _ _ _ E). now apply read_output_json.
  - rewrite (run_tool_fail_json _ _ _ _ _ _ E J). now apply read_output_json.
Qed.

Lemma run_speedtest_garbage w sid timeout out :
  tool_output w (build_cmd sid) timeout = Some out ->
  json_loads out = NotJSON ->
  fst (run_speedtest sid timeout w) = Ret zeros.
Proof.
  unfold tool_output. intros T J. unfold run_speedtest. mrun.
  destruct (how (next_run w (build_cmd sid) timeout)) as [o|c o| | |] eqn:E;
    try discriminate; injection T as ->.
  - rewrite (run_tool_exit0 _ _ _ _ E). now rewrite (read_output_garbage _ _ J).
  - now rewrite (run_tool_fail_garbage _ _ _ _ _ E J).
Qed.

(** Output that goes too deep for [json.loads] makes [run_speedtest]
    raise, whatever the status of the run. *)
Lemma run_speedtest_too_deep w sid timeout out :
  tool_output w (build_cmd sid) timeout = Some out ->
  json_loads out = TooDeep ->
  run_speedtest sid timeout w =
    (Raise RecursionError, started w (build_cmd sid) timeout).
Proof.
  unfold tool_output. intros T J. unfold run_speedtest. mrun.
  destruct (how (next_run w (build_cmd sid) timeout)) as [o|c o| | |] eqn:E;
    try discriminate; injection T as ->.
  - rewrite (run_tool_exit0 _ _ _ _ E). now rewrite (read_output_too_deep _ _ J).
  - now rewrite (run_tool_fail_too_deep _ _ _ _ _ E J).
Qed.

Lemma read_data_error w entries e :
  lookup "error" entries = Some e ->
  read_data (VDict entries) w =
    (Ret zeros,
     with_logged (logged w ++ [(ERROR, "Socker error while speedtest.");
                               (ERROR, py_str e)]) w).
Proof.
  intros E. unfold read_data, py_contains, py_getitem. rewrite E. mrun.
  unfold log_error, with_logged. cbn. now rewrite <- app_assoc.
Qed.


Lemma is_str_true k v : is_str k v = true -> v = VStr k.
Proof.
  destruct v; cbn; try discriminate. intros E.
  apply String.eqb_eq in E. now subst.
Qed.

(** What [event_of_type] says, spelled out. *)
Lemma event_of_type_inv kind data :
  event_of_type kind data = true ->
  exists entries,
    data = VDict entries /\ lookup "error" entries = None /\
    lookup "type" entries = Some (VStr kind).
Proof.
  destruct data as [| | | | |?|entries]; cbn; try discriminate.
  destruct (lookup "error" entries) eqn:Err; try discriminate.
  destruct (lookup "type" entries) as [ty|] eqn:T; try discriminate.
  intros E. apply is_str_true in E. subst. now exists entries.
Qed.

Lemma read_data_log w data ts msg :
  event_of_type "log" data = true ->
  py_getitem data "timestamp" = Ret ts ->
  py_getitem data "message" = Ret msg ->
  read_data data w =
    (Ret zeros,
     with_logged (logged w ++ [(INFO, py_str ts ++ " - " ++ py_str msg)%string;
                               (ERROR, "Successfull speedtest had no json result.")]) w).
Proof.
  intros Ev Ts Msg.
  destruct (event_of_type_inv _ _ Ev) as (entries & -> & Err & Ty).
  unfold read_data. rewrite Ts, Msg. unfold py_contains, py_getitem.
  rewrite Err, Ty. mrun. cbn.
  unfold with_logged. cbn. now rewrite <- app_assoc.
Qed.

(** The part of [read_data] that reads the fields of a result event. *)
Lemma read_data_result w data :
  event_of_type "result" data = true ->
  read_data data w =
    (srv <- lift (py_getitem data "server") ;;
     id <- lift (py_getitem srv "id") ;;
     actual_server <- lift (py_int id) ;;
     png <- lift (py_getitem data "ping") ;;
     actual_jitter <- lift (py_getitem png "jitter") ;;
     png' <- lift (py_getitem data "ping") ;;
     actual_ping <- lift (py_getitem png' "latency") ;;
     dl <- lift (py_getitem data "download") ;;
     dlb <- lift (py_getitem dl "bandwidth") ;;
     actual_download_speed <- lift (bytes_to_bits dlb) ;;
     ul <- lift (py_getitem data "upload") ;;
     ulb <- lift (py_getitem ul "bandwidth") ;;
     actual_upload_speed <- lift (bytes_to_bits ulb) ;;
     ret (VInt actual_server, actual_jitter, actual_ping,
          actual_download_speed, actual_upload_speed, VInt 1))%py w.
Proof.
  intros Ev.
  destruct (event_of_type_inv _ _ Ev) as (entries & -> & Err & Ty).
  unfold read_data, py_contains, py_getitem. rewrite Err, Ty. reflexivity.
Qed.

Lemma field_inv data a b v :
  field data a b = Some v ->
  exists x, py_getitem data a = Ret x /\ py_getitem x b = Ret v.
Proof.
  unfold field. destruct (py_getitem data a) as [x|]; try discriminate.
  destruct (py_getitem x b) as [y|] eqn:E; try discriminate.
  intros [= ->]. now exists x.
Qed.

Lemma read_data_fields w data id n j l dlb ulb d u :
  event_of_type "result" data = true ->
  field data "server" "id" = Some id -> py_int id = Ret n ->
  field data "ping" "jitter" = Some j ->
  field data "ping" "latency" = Some l ->
  field data "download" "bandwidth" = Some dlb -> bytes_to_bits dlb = Ret d ->
  field data "upload" "bandwidth" = Some ulb -> bytes_to_bits ulb = Ret u ->
  read_data data w = (Ret (VInt n, j, l, d, u, VInt 1), w).
Proof.
  intros Ev Fid Hn Fj Fl Fd Hd Fu Hu. rewrite (read_data_result _ _ Ev).
  destruct (field_inv _ _ _ _ Fid) as (srv & E1 & E2).
  destruct (field_inv _ _ _ _ Fj) as (png & E3 & E4).
  destruct (field_inv _ _ _ _ Fl) as (png' & E5 & E6).
  destruct (field_inv _ _ _ _ Fd) as (dl & E7 & E8).
  destruct (field_inv _ _ _ _ Fu) as (ul & E9 & E10).
  rewrite E3 in E5. injection E5 as <-.
  mrun. rewrite E1. mrun. rewrite E2. mrun. rewrite Hn. mrun. rewrite E3. mrun.
  rewrite E4. mrun. rewrite E6. mrun. rewrite E7. mrun. rewrite E8. mrun.
  rewrite Hd. mrun. rewrite E9. mrun. rewrite E10. mrun. rewrite Hu. reflexivity.
Qed.


Lemma py_getitem_error v k e :
  py_getitem v k = Raise e -> extraction_error e = true.
Proof.
  destruct v as [| | | | |?|entries]; cbn; try (intros [= <-]; reflexivity).
  destruct (lookup k entries); [discriminate | intros [= <-]; reflexivity].
Qed.

Lemma py_int_error v e : py_int v = Raise e -> extraction_error e = true.
Proof.
  destruct v as [| | |x|s| |]; cbn; try discriminate;
    try (intros [= <-]; reflexivity).
  - destruct x; cbn; try discriminate; intros [= <-]; reflexivity.
  - destruct (int_of_str s); [discriminate | intros [= <-]; reflexivity].
Qed.

Lemma bytes_to_bits_int d : bytes_to_bits (VInt d) = Ret (VInt (8 * d)).
Proof.
  unfold bytes_to_bits, py_mul. cbn [as_number]. now rewrite Z.mul_comm.
Qed.

(** A float is multiplied as binary64 numbers are. *)
Lemma bytes_to_bits_float x :
  bytes_to_bits (VFloat x) = Ret (VFloat (fmul x (float_of_Z 8))).
Proof. reflexivity. Qed.

Lemma bytes_to_bits_error v e :
  bytes_to_bits v = Raise e -> extraction_error e = true.
Proof.
  destruct v; try discriminate; try (intros [= <-]; reflexivity).
Qed.

Lemma read_data_partial w data :
  event_of_type "result" data = true ->
  field data "server" "id" = None \/
  (exists id e, field data "server" "id" = Some id /\ py_int id = Raise e) \/
  field data "ping" "jitter" = None \/
  field data "ping" "latency" = None \/
  field data "download" "bandwidth" = None \/
  field data "upload" "bandwidth" = None ->
  exists e, fst (read_data data w) = Raise e /\ extraction_error e = true.
Proof.
  intros Ev Miss. rewrite (read_data_result _ _ Ev). unfold field in Miss.
  destruct (py_getitem data "server") as [srv|e1] eqn:E1; mrun;
    [| eauto using py_getitem_error].
  destruct (py_getitem srv "id") as [id|e2] eqn:E2; mrun;
    [| eauto using py_getitem_error].
  destruct (py_int id) as [n|e3] eqn:E3; mrun; [| eauto using py_int_error].
  destruct (py_getitem data "ping") as [png|e4] eqn:E4; mrun;
    [| eauto using py_getitem_error].
  destruct (py_getitem png "jitter") as [j|e5] eqn:E5; mrun;
    [| eauto using py_getitem_error].
  destruct (py_getitem png "latency") as [l|e6] eqn:E6; mrun;
    [| eauto using py_getitem_error].
  destruct (py_getitem data "download") as [dl|e7] eqn:E7; mrun;
    [| eauto using py_getitem_error].
  destruct (py_getitem dl "bandwidth") as [dlb|e8] eqn:E8; mrun;
    [| eauto using py_getitem_error].
  destruct (bytes_to_bits dlb) as [d|e9] eqn:E9; mrun;
    [| eauto using bytes_to_bits_error].
  destruct (py_getitem data "upload") as [ul|e10] eqn:E10; mrun;
    [| eauto using py_getitem_error].
  destruct (py_getitem ul "bandwidth") as [ulb|e11] eqn:E11; mrun;
    [| eauto using py_getitem_error].
  destruct (bytes_to_bits ulb) as [u|e12] eqn:E12; mrun;
    [| eauto using bytes_to_bits_error].
  exfalso.
  destruct Miss as [M|[(id' & e & M & M')|[M|[M|[M|M]]]]]; try discriminate.
  injection M as <-. congruence.
Qed.


(** A run that ends on the timeout leaves [check_output] with
    [TimeoutExpired], which no clause of [run_speedtest] catches. *)
Lemma run_tool_timeout w cmd timeout :
  how (next_run w cmd timeout) = TimedOut ->
  run_tool cmd timeout w = (Raise TimeoutExpired, started w cmd timeout).
Proof.
  intros E. unfold run_tool, try_except, check_output. mrun. now rewrite E.
Qed.

Lemma run_tool_spawn_failed w cmd timeout :
  how (next_run w cmd timeout) = SpawnFailed ->
  run_tool cmd timeout w = (Raise OSError, started w cmd timeout).
Proof.
  intros E. unfold run_tool, try_except, check_output. mrun. now rewrite E.
Qed.

Lemma run_tool_refused w cmd timeout :
  how (next_run w cmd timeout) = Refused ->
  run_tool cmd timeout w = (Raise OverflowError, started w cmd timeout).
Proof.
  intros E. unfold run_tool, try_except, check_output. mrun. now rewrite E.
Qed.

(** A timeout of 2147484 seconds or more: the tool is started and the
    wait for it is refused. *)
Lemma next_run_too_long w cmd timeout :
  too_long timeout = true ->
  how (next_run w cmd timeout) = SpawnFailed \/
  how (next_run w cmd timeout) = Refused.
Proof.
  intros L. unfold next_run. rewrite L.
  destruct (how (tool w (List.length (spawned w)) cmd timeout)) eqn:E; auto.
Qed.

Lemma run_speedtest_timeout w sid timeout :
  how (next_run w (build_cmd sid) timeout) = TimedOut ->
  run_speedtest sid timeout w =
    (Raise TimeoutExpired, started w (build_cmd sid) timeout).
Proof.
  intros E. unfold run_speedtest. mrun. now rewrite (run_tool_timeout _ _ _ E).
Qed.

(** X4: a tool that cannot be started leaves [run_speedtest] with
    [OSError], after the attempt was put on record and with nothing
    logged. *)
Lemma spawn_failure_leaves_run_speedtest w server_id timeout :
  how (next_run w (build_cmd server_id) timeout) = SpawnFailed ->
  run_speedtest server_id timeout w =
    (Raise OSError, started w (build_cmd server_id) timeout).
Proof.
  intros E. unfold run_speedtest. mrun.
  now rewrite (run_tool_spawn_failed _ _ _ E).
Qed.

(** An object of no known shape: no ["error"] key, and a ["type"], if
    any, that is neither ["log"] nor ["result"]. *)
Lemma read_data_other w entries :
  lookup "error" entries = None ->
  match lookup "type" entries with
  | Some ty => py_eq_str ty "log" = false /\ py_eq_str ty "result" = false
  | None => True
  end ->
  read_data (VDict entries) w = no_result w.
Proof.
  intros Err Ty. unfold read_data, py_contains, py_getitem. rewrite Err.
  destruct (lookup "type" entries) as [ty|]; [|reflexivity].
  destruct Ty as [L R]. mrun. now rewrite L, R.
Qed.

(** C1, at the failing outcome: when the run of the tool exceeds the
    timeout, [run_speedtest] does not return a failure tuple: the
    exception [TimeoutExpired] leaves it, after the process was started,
    with nothing logged and no gauge written. *)
Theorem timeout_leaves_run_speedtest w server_id timeout :
  how (next_run w (build_cmd server_id) timeout) = TimedOut ->
  run_speedtest server_id timeout w =
    (Raise TimeoutExpired, started w (build_cmd server_id) timeout).
Proof.
  intros E. unfold run_speedtest. mrun. now rewrite (run_tool_timeout _ _ _ E).
Qed.

(** C3: for a result event whose fields are there, with an identifier
    that [int] accepts and integer bandwidths [d] and [u], the tuple holds
    [8 * d] and [8 * u], the jitter and the latency as they were read,
    and the status 1. *)
Theorem result_event_bits w server_id timeout out data id n j l d u :
  tool_output w (build_cmd server_id) timeout = Some out ->
  json_loads out = Parsed data ->
  event_of_type "result" data = true ->
  field data "server" "id" = Some id -> py_int id = Ret n ->
  field data "ping" "jitter" = Some j ->
  field data "ping" "latency" = Some l ->
  field data "download" "bandwidth" = Some (VInt d) ->
  field data "upload" "bandwidth" = Some (VInt u) ->
  fst (run_speedtest server_id timeout w) =
    Ret (VInt n, j, l, VInt (8 * d), VInt (8 * u), VInt 1).
Proof.
  intros T J Ev Fid Hn Fj Fl Fd Fu. rewrite (run_speedtest_reads _ _ _ _ _ T J).
  rewrite (read_data_fields _ data id n j l (VInt d) (VInt u)
             (VInt (8 * d)) (VInt (8 * u)));
    trivial using bytes_to_bits_int.
Qed.

(** C4, amended: after a run of the tool that exits, output on which
    [json.loads] raises [ValueError], and output that it parses to an
    object with an ["error"] key, both give the all-zero tuple. *)
Theorem unusable_output_gives_zeros w server_id timeout out :
  tool_output w (build_cmd server_id) timeout = Some out ->
  json_loads out = NotJSON \/
  (exists data, json_loads out = Parsed data /\ has_key "error" data = true) ->
  fst (run_speedtest server_id timeout w) = Ret zeros.
Proof.
  intros T [J|(data & J & K)].
  - now apply run_speedtest_garbage with out.
  - rewrite (run_speedtest_reads _ _ _ _ _ T J).
    destruct data as [| | | | |?|entries]; try discriminate. cbn in K.
    destruct (lookup "error" entries) as [e|] eqn:E; try discriminate.
    now rewrite (read_data_error _ _ _ E).
Qed.

(** C5, amended: for a log event that carries a timestamp and a message
    (and no ["error"] key), one process is run, the event is logged at
    level INFO, then the missing result is logged, and the all-zero
    tuple is returned. *)
Theorem log_event_gives_zeros w server_id timeout out data ts msg :
  tool_output w (build_cmd server_id) timeout = Some out ->
  json_loads out = Parsed data ->
  event_of_type "log" data = true ->
  py_getitem data "timestamp" = Ret ts ->
  py_getitem data "message" = Ret msg ->
  run_speedtest server_id timeout w =
    (Ret zeros,
     with_logged
       (logged w ++ [(INFO, py_str ts ++ " - " ++ py_str msg)%string;
                     (ERROR, "Successfull speedtest had no json result.")])
       (started w (build_cmd server_id) timeout)).
Proof.
  intros T J Ev Ts Msg. rewrite (run_speedtest_reads _ _ _ _ _ T J).
  now rewrite (read_data_log _ _ _ _ Ev Ts Msg).
Qed.

(** C10, amended: for a result event without an ["error"] key from
    which a field is missing, or whose server identifier [int] refuses,
    [run_speedtest] raises one of [KeyError], [ValueError], [TypeError]
    and [OverflowError]. *)
Theorem result_event_extraction_raises w server_id timeout out data :
  tool_output w (build_cmd server_id) timeout = Some out ->
  json_loads out = Parsed data ->
  event_of_type "result" data = true ->
  field data "server" "id" = None \/
  (exists id e, field data "server" "id" = Some id /\ py_int id = Raise e) \/
  field data "ping" "jitter" = None \/
  field data "ping" "latency" = None \/
  field data "download" "bandwidth" = None \/
  field data "upload" "bandwidth" = None ->
  exists e, fst (run_speedtest server_id timeout w) = Raise e /\
            extraction_error e = true.
Proof.
  intros T J Ev Miss. rewrite (run_speedtest_reads _ _ _ _ _ T J).
  now apply read_data_partial.
Qed.

End Runner.

(** * What can leave the probe runner *)

Section Escapes.
Context `{Python}.

Lemma raises_only_ret {A} P (a : A) : raises_only P (ret a).
Proof. intros w e. discriminate. Qed.

Lemma raises_only_bind {A B} P (m : M A) (k : A -> M B) :
  raises_only P m -> (forall a, raises_only P (k a)) -> raises_only P (bind m k).
Proof.
  intros Hm Hk w e. specialize (Hm w). cbn.
  destruct (m w) as [[a|e'] w1]; cbn in *.
  - apply Hk.
  - intros [= <-]. now apply Hm.
Qed.

Lemma raises_only_lift {A} (P : exn -> bool) (r : res A) :
  (forall e, r = Raise e -> P e = true) -> raises_only P (lift r).
Proof. intros Hr w e. cbn. apply Hr. Qed.

Lemma raises_only_log_error P msg : raises_only P (log_error msg).
Proof. intros w e. discriminate. Qed.

Lemma raises_only_log_info P msg : raises_only P (log_info msg).
Proof. intros w e. discriminate. Qed.

Lemma py_contains_error k v e :
  py_contains k v = Raise e -> extraction_error e = true.
Proof. destruct v; cbn; try discriminate; now intros [= <-]. Qed.

Ltac escapes :=
  repeat first
    [ apply raises_only_ret
    | apply raises_only_log_error
    | apply raises_only_log_info
    | apply raises_only_lift;
        first [ apply py_contains_error | apply py_getitem_error
              | apply py_int_error | apply bytes_to_bits_error ]
    | apply raises_only_bind; [| intros ?]
    | match goal with |- raises_only _ (if ?b then _ else _) => destruct b end ].

(** Reading the parsed output raises nothing but the errors of the
    subscripts, of [in], of [int] and of the product. *)
Lemma read_data_raises data : raises_only extraction_error (read_data data).
Proof. unfold read_data, no_result. escapes. Qed.

Lemma read_output_raises out w e :
  fst (read_output out w) = Raise e ->
  match json_loads out with
  | TooDeep => e = RecursionError
  | Parsed _ | NotJSON => extraction_error e = true
  end.
Proof.
  destruct (json_loads out) as [data| |] eqn:J.
  - rewrite (read_output_json _ _ _ J). apply read_data_raises.
  - rewrite (read_output_garbage _ _ J). discriminate.
  - rewrite (read_output_too_deep _ _ J). now intros [= <-].
Qed.

(** X3: what leaves [run_speedtest], by the way in which the call of
    [check_output] ends: [TimeoutExpired] after a timeout, [OSError] when
    the tool cannot be started, [OverflowError] when the wait is refused,
    and after a run that exits [RecursionError] when [json.loads] gives up
    on the depth of the output, and else the errors of reading the parsed
    output. [CalledProcessError], the one exception that [run_speedtest]
    handles, is none of them. *)
Lemma run_speedtest_raises server_id timeout w e :
  fst (run_speedtest server_id timeout w) = Raise e ->
  match how (next_run w (build_cmd server_id) timeout) with
  | TimedOut => e = TimeoutExpired
  | SpawnFailed => e = OSError
  | Refused => e = OverflowError
  | Exit0 out | ExitFail _ out =>
      match json_loads out with
      | TooDeep => e = RecursionError
      | Parsed _ | NotJSON => extraction_error e = true
      end
  end.
Proof.
  unfold run_speedtest. mrun.
  destruct (how (next_run w (build_cmd server_id) timeout)) as [o|c o| | |] eqn:E.
  - rewrite (run_tool_exit0 _ _ _ _ E). apply read_output_raises.
  - destruct (json_loads o) as [v| |] eqn:J.
    + rewrite (run_tool_fail_json _ _ _ _ _ _ E J).
      intros R. apply read_output_raises in R. now rewrite J in R.
    + rewrite (run_tool_fail_garbage _ _ _ _ _ E J). discriminate.
    + rewrite (run_tool_fail_too_deep _ _ _ _ _ E J). now intros [= <-].
  - rewrite (run_tool_timeout _ _ _ E). now intros [= <-].
  - rewrite (run_tool_spawn_failed _ _ _ E). now intros [= <-].
  - rewrite (run_tool_refused _ _ _ E). now intros [= <-].
Qed.

End Escapes.

(** * What a computation leaves alone *)

#[local] Instance same_but_log_preorder : PreOrder same_but_log.
Proof.
  split.
  - intros w. repeat split.
  - intros a b c Hab Hbc. unfold same_but_log in *. intuition congruence.
Qed.

#[local] Instance same_but_gauges_preorder : PreOrder same_but_gauges.
Proof.
  split.
  - intros w. repeat split.
  - intros a b c Hab Hbc. unfold same_but_gauges in *. intuition congruence.
Qed.

Lemma same_but_log_gauges w w' : same_but_log w w' -> same_but_gauges w w'.
Proof. unfold same_but_log, same_but_gauges. intuition. Qed.

Section Keeps.
Context {R : World -> World -> Prop} `{!PreOrder R}.

Lemma keeps_ret {A} (a : A) : keeps R (ret a).
Proof. intros w. cbn. reflexivity. Qed.

Lemma keeps_lift {A} (r : res A) : keeps R (lift r).
Proof. intros w. cbn. reflexivity. Qed.

Lemma keeps_raise {A} e : keeps R (@raise A e).
Proof. intros w. cbn. reflexivity. Qed.

Lemma keeps_bind {A B} (m : M A) (k : A -> M B) :
  keeps R m -> (forall a, keeps R (k a)) -> keeps R (bind m k).
Proof.
  intros Hm Hk w. specialize (Hm w). cbn.
  destruct (m w) as [[a|e] w1]; cbn in *; trivial.
  transitivity w1; trivial. apply Hk.
Qed.

Lemma keeps_try_except {A} (m : M A) h :
  keeps R m -> (forall e k, h e = Some k -> keeps R k) ->
  keeps R (try_except m h).
Proof.
  intros Hm Hh w. specialize (Hm w). unfold try_except.
  destruct (m w) as [[a|e] w1]; cbn in *; trivial.
  destruct (h e) as [k|] eqn:E; cbn; trivial.
  transitivity w1; trivial. now apply (Hh e).
Qed.

Lemma keeps_if {A} (b : bool) (m1 m2 : M A) :
  keeps R m1 -> keeps R m2 -> keeps R (if b then m1 else m2).
Proof. now destruct b. Qed.
End Keeps.

Lemma keeps_weaken {A} (R S : World -> World -> Prop) (m : M A) :
  (forall w w', R w w' -> S w w') -> keeps R m -> keeps S m.
Proof. intros RS Hm w. apply RS, Hm. Qed.

Section Frames.
Context `{Python}.

Lemma keeps_log_error msg : keeps same_but_log (log_error msg).
Proof. intros w. repeat split. Qed.

Lemma keeps_log_info msg : keeps same_but_log (log_info msg).
Proof. intros w. repeat split. Qed.

Lemma keeps_py_json_loads out : keeps same_but_log (py_json_loads out).
Proof.
  unfold py_json_loads. destruct (json_loads out);
    [apply keeps_ret | apply keeps_raise | apply keeps_raise].
Qed.

Ltac frame :=
  repeat first
    [ apply keeps_bind; [| intros ?]
    | apply keeps_ret | apply keeps_lift | apply keeps_raise
    | apply keeps_log_error | apply keeps_log_info
    | apply keeps_py_json_loads
    | apply keeps_if
    | match goal with |- keeps _ (if ?b then _ else _) => destruct b end
    | match goal with |- keeps _ (match ?x with _ => _ end) => destruct x end ].

Lemma keeps_is_json out : keeps same_but_log (is_json out).
Proof.
  unfold is_json. apply keeps_try_except; [frame|].
  intros e k. destruct e; try discriminate. intros [= <-]. frame.
Qed.

Lemma keeps_read_data data : keeps same_but_log (read_data data).
Proof. unfold read_data, no_result. frame. Qed.

Lemma keeps_read_output out : keeps same_but_log (read_output out).
Proof.
  unfold read_output, no_result.
  apply keeps_bind; [apply keeps_is_json|]. intros [|].
  - apply keeps_bind; [apply keeps_py_json_loads|]. apply keeps_read_data.
  - frame.
Qed.

Lemma keeps_put_gauge g x : keeps same_but_gauges (put_gauge g x).
Proof. intros w. repeat split. Qed.

Lemma keeps_gauge_set g v : keeps same_but_gauges (gauge_set g v).
Proof.
  unfold gauge_set. apply keeps_bind; [apply keeps_lift|].
  intros x. apply keeps_put_gauge.
Qed.

Lemma keeps_publish t : keeps same_but_gauges (publish t).
Proof.
  destruct t as [[[[[a b] c] d] e] f]. unfold publish. cbv beta iota.
  repeat first
    [ apply keeps_gauge_set
    | apply keeps_lift
    | apply (keeps_weaken same_but_log);
        [apply same_but_log_gauges | apply keeps_log_info]
    | apply keeps_bind; [| intros ?] ].
Qed.
End Frames.

(** * The refresh cache *)

Section Cache.
Context `{Python}.

(** Whatever the run of the tool ends in, [run_speedtest] leaves the
    world as the run left it, up to the log. *)
Lemma run_speedtest_world sid timeout w :
  same_but_log (started w (build_cmd sid) timeout)
               (snd (run_speedtest sid timeout w)).
Proof.
  unfold run_speedtest. mrun.
  destruct (how (next_run w (build_cmd sid) timeout)) as [o|c o| | |] eqn:E.
  - rewrite (run_tool_exit0 _ _ _ _ E). apply keeps_read_output.
  - destruct (json_loads o) as [v| |] eqn:J.
    + rewrite (run_tool_fail_json _ _ _ _ _ _ E J). apply keeps_read_output.
    + rewrite (run_tool_fail_garbage _ _ _ _ _ E J). repeat split.
    + rewrite (run_tool_fail_too_deep _ _ _ _ _ E J). reflexivity.
  - rewrite (run_tool_timeout _ _ _ E). reflexivity.
  - rewrite (run_tool_spawn_failed _ _ _ E). reflexivity.
  - rewrite (run_tool_refused _ _ _ E). reflexivity.
Qed.

(** With a readable configuration, [record_speedtest] is its test and
    its answer. *)
Lemma record_speedtest_configured w ttl rt :
  configured w ttl rt ->
  record_speedtest w =
    ((if speedtest_cache_timeout w <? clock w
      then refresh ttl (target w) rt
      else ret tt) ;;
     make_wsgi_app)%py w.
Proof.
  intros [C R]. unfold record_speedtest, os_getenv, time_time, get_cache_timeout.
  mrun. rewrite C. mrun. rewrite R. reflexivity.
Qed.

(** Before the deadline, and at the deadline, nothing is touched. *)
Lemma record_speedtest_cached w :
  clock w <= speedtest_cache_timeout w ->
  snd (record_speedtest w) = w.
Proof.
  intros Le. unfold record_speedtest, os_getenv, time_time, get_cache_timeout.
  mrun.
  destruct (py_int (env_value w "SPEEDTEST_CACHE_TIMEOUT" (VInt 900)));
    mrun; trivial.
  destruct (py_int (env_value w "SPEEDTEST_RUN_TIMEOUT" (VInt 90)));
    mrun; trivial.
  apply Z.ltb_ge in Le. now rewrite Le.
Qed.

Lemma record_speedtest_cached_answer w ttl rt :
  configured w ttl rt ->
  clock w <= speedtest_cache_timeout w ->
  record_speedtest w = (Ret (registry w), w).
Proof.
  intros C Le. rewrite (record_speedtest_configured _ _ _ C).
  apply Z.ltb_ge in Le. now rewrite Le.
Qed.

(** What a refresh does to the world: one process more, the clock moved
    on by the run, and a new deadline exactly when it gets to its end. *)
Lemma refresh_world w ttl sid rt :
  let w' := snd (refresh ttl sid rt w) in
  environ w' = environ w /\ tool w' = tool w /\
  spawned w' = (spawned w ++ [(build_cmd sid, Some rt)])%list /\
  clock w' = clock w + elapsed (next_run w (build_cmd sid) (Some rt)) /\
  speedtest_cache_timeout w' =
    match fst (refresh ttl sid rt w) with
    | Ret _ => clock w' + ttl
    | Raise _ => speedtest_cache_timeout w
    end.
Proof.
  unfold refresh. mrun.
  pose proof (run_speedtest_world sid (Some rt) w) as F.
  destruct (run_speedtest sid (Some rt) w) as [[t|e] w1]; cbn [snd] in F.
  - pose proof (keeps_publish t w1) as G.
    destruct (publish t w1) as [[[]|e] w2]; cbn [snd] in G;
      unfold time_time; mrun; try destruct (int_to_float ttl);
      unfold same_but_log, same_but_gauges in *; cbn in *;
      intuition congruence.
  - unfold same_but_log in F. cbn in *. intuition congruence.
Qed.


Lemma then_answer_world (m : M unit) w :
  snd ((m ;; make_wsgi_app)%py w) = snd (m w).
Proof. mrun. now destruct (m w) as [[[]|e] w1]. Qed.

Lemma then_answer_result (m : M unit) w :
  fst ((m ;; make_wsgi_app)%py w) =
    match fst (m w) with
    | Ret _ => Ret (registry (snd (m w)))
    | Raise e => Raise e
    end.
Proof. mrun. now destruct (m w) as [[[]|e] w1]. Qed.

(** Past the deadline, the world after the call is the world after the
    refresh. *)
Lemma record_speedtest_stale w ttl rt :
  configured w ttl rt ->
  speedtest_cache_timeout w < clock w ->
  snd (record_speedtest w) = snd (refresh ttl (target w) rt w) /\
  fst (record_speedtest w) =
    match fst (refresh ttl (target w) rt w) with
    | Ret _ => Ret (registry (snd (refresh ttl (target w) rt w)))
    | Raise e => Raise e
    end.
Proof.
  intros C Lt. rewrite (record_speedtest_configured _ _ _ C).
  apply Z.ltb_lt in Lt. rewrite Lt.
  split; [apply then_answer_world | apply then_answer_result].
Qed.

Lemma configured_environ w w' ttl rt :
  environ w' = environ w -> configured w ttl rt -> configured w' ttl rt.
Proof. unfold configured, env_value. now intros ->. Qed.

(** X12: the first request runs the tool, when it comes later than the
    module was loaded. *)
Lemma first_request_probes env t t0 gap ttl rt :
  configured (loaded env t t0) ttl rt ->
  0 < gap ->
  probes record_speedtest (with_clock (t0 + gap) (loaded env t t0)) = 1%nat.
Proof.
  intros C G. set (w := with_clock (t0 + gap) (loaded env t t0)).
  assert (C' : configured w ttl rt) by exact C.
  assert (Lt : speedtest_cache_timeout w < clock w) by (cbn; lia).
  unfold probes. destruct (record_speedtest_stale _ _ _ C' Lt) as [-> _].
  destruct (refresh_world w ttl (target w) rt) as (_ & _ & -> & _).
  rewrite length_app. cbn. lia.
Qed.

(** C2, amended: a call starts a run of the tool exactly when the clock
    is strictly past the deadline; at [now == valid_until], as at
    [now == valid_until - 1], it starts none. *)
Theorem refresh_only_past_deadline w ttl rt :
  configured w ttl rt ->
  probes record_speedtest w =
    if speedtest_cache_timeout w <? clock w then 1%nat else 0%nat.
Proof.
  intros C. unfold probes.
  destruct (speedtest_cache_timeout w <? clock w) eqn:E.
  - apply Z.ltb_lt in E.
    destruct (record_speedtest_stale _ _ _ C E) as [-> _].
    destruct (refresh_world w ttl (target w) rt) as (_ & _ & -> & _).
    rewrite length_app. cbn. lia.
  - apply Z.ltb_ge in E. rewrite (record_speedtest_cached _ E). lia.
Qed.

(** A call that finds the cache out of date and returns has run the tool
    once and leaves the registry it returns and a deadline that counts
    from the end of the run. *)
Lemma refreshing_call w ttl rt r1 w1 :
  configured w ttl rt ->
  speedtest_cache_timeout w < clock w ->
  record_speedtest w = (Ret r1, w1) ->
  environ w1 = environ w /\
  spawned w1 = (spawned w ++ [probe_cmd w rt])%list /\
  registry w1 = r1 /\
  speedtest_cache_timeout w1 =
    clock w + elapsed (next_run w (build_cmd (target w)) (Some rt)) + ttl.
Proof.
  intros C Lt Run.
  destruct (record_speedtest_stale _ _ _ C Lt) as [W R]. rewrite Run in W, R.
  cbn [fst snd] in W, R.
  destruct (refresh_world w ttl (target w) rt) as (En & _ & Sp & Cl & Dl).
  rewrite <- W in *.
  destruct (fst (refresh ttl (target w) rt w)) as [[]|e]; try discriminate.
  injection R as ->. repeat split; trivial. now rewrite Dl, Cl.
Qed.

(** Let a call at [now] find the cache out of date, run the tool and
    return. A second call with the same [now] then starts no run, changes
    nothing and returns the same registry, the lifetime and the time that
    the run took being not negative; and so does every call at a time
    within the window that the first call opens, up to the new deadline.
    One run of the tool was started in all. *)
Theorem same_now_one_probe w ttl rt r1 w1 :
  configured w ttl rt ->
  speedtest_cache_timeout w < clock w ->
  record_speedtest w = (Ret r1, w1) ->
  spawned w1 = (spawned w ++ [probe_cmd w rt])%list /\
  (0 <= ttl ->
   0 <= elapsed (next_run w (build_cmd (target w)) (Some rt)) ->
   record_speedtest (with_clock (clock w) w1) =
     (Ret r1, with_clock (clock w) w1)) /\
  (forall now,
     now <= speedtest_cache_timeout w1 ->
     record_speedtest (with_clock now w1) = (Ret r1, with_clock now w1)).
Proof.
  intros C Lt Run.
  destruct (refreshing_call _ _ _ _ _ C Lt Run) as (En & Sp & Rg & Dl).
  assert (Hit : forall now,
             now <= speedtest_cache_timeout w1 ->
             record_speedtest (with_clock now w1) = (Ret r1, with_clock now w1)).
  { intros now Le. rewrite (record_speedtest_cached_answer _ ttl rt).
    - cbn. now rewrite Rg.
    - now apply (configured_environ w).
    - exact Le. }
  split; [exact Sp|]. split; [|exact Hit].
  intros Ttl El. apply Hit. lia.
Qed.

(** A call past the deadline whose run of the tool ends on the timeout. *)
Lemma record_speedtest_timeout w ttl rt :
  configured w ttl rt ->
  speedtest_cache_timeout w < clock w ->
  how (next_run w (build_cmd (target w)) (Some rt)) = TimedOut ->
  record_speedtest w =
    (Raise TimeoutExpired, started w (build_cmd (target w)) (Some rt)).
Proof.
  intros C Lt E. rewrite (record_speedtest_configured _ _ _ C).
  apply Z.ltb_lt in Lt. rewrite Lt. unfold refresh. mrun.
  now rewrite (run_speedtest_timeout _ _ _ E).
Qed.

(** C6, at the failing outcome: two calls with the same [now], past the
    deadline, with a tool that is still running when the timeout is over.
    Neither call returns a result: [TimeoutExpired] leaves both, and the
    tool is run twice, once by each call, nothing of the first failure
    being kept. *)
Theorem hung_probe_runs_on_every_call w ttl rt :
  configured w ttl rt ->
  speedtest_cache_timeout w < clock w ->
  let cmd := build_cmd (target w) in
  let w1 := with_clock (clock w) (snd (record_speedtest w)) in
  how (next_run w cmd (Some rt)) = TimedOut ->
  how (next_run w1 cmd (Some rt)) = TimedOut ->
  fst (record_speedtest w) = Raise TimeoutExpired /\
  fst (record_speedtest w1) = Raise TimeoutExpired /\
  spawned (snd (record_speedtest w1)) =
    (spawned w ++ [probe_cmd w rt; probe_cmd w rt])%list.
Proof.
  intros C Lt cmd w1 E1 E2. subst cmd w1.
  rewrite (record_speedtest_timeout _ _ _ C Lt E1) in *. cbn [fst snd] in *.
  set (w1 := with_clock (clock w) (started w (build_cmd (target w)) (Some rt))) in *.
  assert (C1 : configured w1 ttl rt) by exact C.
  assert (Lt1 : speedtest_cache_timeout w1 < clock w1) by exact Lt.
  rewrite (record_speedtest_timeout _ _ _ C1 Lt1 E2). cbn [fst snd].
  repeat split. cbn. now rewrite <- app_assoc.
Qed.

Lemma reads_as_py_float v x : reads_as v x -> py_float v = Ret x.
Proof.
  intros (n & N & F). destruct v as [|b|k|y| | |]; try discriminate;
    injection N as <-; trivial.
  destruct b; vm_compute in F; now injection F as <-.
Qed.

Lemma reads_as_megabits v x :
  reads_as v x ->
  bits_to_megabits v = Ret (VFloat (py_round (fmul x ten_pow_minus_6) 2)).
Proof.
  intros (n & N & F). unfold bits_to_megabits, py_mul. rewrite N.
  cbn [as_number]. destruct n; cbn [bind Monad_res number_to_float] in *.
  - now rewrite F.
  - now injection F as ->.
Qed.

Lemma gauge_set_number g v x w :
  reads_as v x ->
  gauge_set g v w = (Ret tt, with_registry (store g x (registry w)) w).
Proof.
  intros R. unfold gauge_set. mrun. now rewrite (reads_as_py_float _ _ R).
Qed.

(** A tuple of numbers is logged and taken over by all six gauges. *)
Lemma publish_numbers vs vj vp vd vu vst xs xj xp xd xu xst w :
  reads_as vs xs -> reads_as vj xj -> reads_as vp xp ->
  reads_as vd xd -> reads_as vu xu -> reads_as vst xst ->
  publish (vs, vj, vp, vd, vu, vst) w =
    (Ret tt,
     with_registry
       {| server := xs; jitter := xj; ping := xp; download_speed := xd;
          upload_speed := xu; status := xst |}
       (with_logged
          (logged w ++ [(INFO, refresh_line (vs, vj, vp, vd, vu, vst) xd xu)])
          w)).
Proof.
  intros Rs Rj Rp Rd Ru Rst. unfold publish. mrun.
  rewrite (reads_as_megabits _ _ Rd). mrun.
  rewrite (reads_as_megabits _ _ Ru). mrun.
  unfold log_info at 1. cbv beta iota.
  rewrite (gauge_set_number _ _ _ _ Rs). cbv beta iota.
  rewrite (gauge_set_number _ _ _ _ Rj). cbv beta iota.
  rewrite (gauge_set_number _ _ _ _ Rp). cbv beta iota.
  rewrite (gauge_set_number _ _ _ _ Rd). cbv beta iota.
  rewrite (gauge_set_number _ _ _ _ Ru). cbv beta iota.
  rewrite (gauge_set_number _ _ _ _ Rst). reflexivity.
Qed.


(** With a cache lifetime that no float can hold, the sum of line 120
    raises after the six gauges were written, and the deadline stays. *)
Lemma lifetime_out_of_range w ttl rt vs vj vp vd vu vst w1 xs xj xp xd xu xst e :
  configured w ttl rt ->
  int_to_float ttl = Raise e ->
  speedtest_cache_timeout w < clock w ->
  run_speedtest (target w) (Some rt) w = (Ret (vs, vj, vp, vd, vu, vst), w1) ->
  reads_as vs xs -> reads_as vj xj -> reads_as vp xp ->
  reads_as vd xd -> reads_as vu xu -> reads_as vst xst ->
  let w' := snd (record_speedtest w) in
  fst (record_speedtest w) = Raise OverflowError /\
  registry w' =
    {| server := xs; jitter := xj; ping := xp; download_speed := xd;
       upload_speed := xu; status := xst |} /\
  speedtest_cache_timeout w' = speedtest_cache_timeout w.
Proof.
  intros C Ft Lt Run Rs Rj Rp Rd Ru Rst w'. subst w'.
  assert (e = OverflowError) as ->.
  { unfold int_to_float in Ft. destruct (float_of_Z ttl); try discriminate.
    now injection Ft as <-. }
  destruct (record_speedtest_stale _ _ _ C Lt) as [-> ->].
  destruct (run_speedtest_world (target w) (Some rt) w) as (_ & _ & _ & Dl & _).
  rewrite Run in Dl. cbn [snd] in Dl.
  assert (E : refresh ttl (target w) rt w =
              (Raise OverflowError,
               with_registry
                 {| server := xs; jitter := xj; ping := xp;
                    download_speed := xd; upload_speed := xu;
                    status := xst |}
                 (with_logged
                    (logged w1 ++
                     [(INFO, refresh_line (vs, vj, vp, vd, vu, vst) xd xu)])
                    w1))).
  { unfold refresh. mrun. rewrite Run.
    rewrite (publish_numbers _ _ _ _ _ _ _ _ _ _ _ _ _ Rs Rj Rp Rd Ru Rst).
    unfold time_time. mrun. now rewrite Ft. }
  rewrite E. cbn [fst snd]. repeat split. exact Dl.
Qed.


(** One call past the deadline: what the world after it looks like. *)
Lemma stale_call_world w ttl rt :
  configured w ttl rt ->
  speedtest_cache_timeout w < clock w ->
  let w' := snd (record_speedtest w) in
  environ w' = environ w /\ tool w' = tool w /\
  spawned w' = (spawned w ++ [probe_cmd w rt])%list /\
  clock w' = clock w + elapsed (next_run w (build_cmd (target w)) (Some rt)) /\
  (speedtest_cache_timeout w' = clock w' + ttl \/
   speedtest_cache_timeout w' = speedtest_cache_timeout w).
Proof.
  intros C Lt w'. subst w'.
  destruct (record_speedtest_stale _ _ _ C Lt) as [-> _].
  destruct (refresh_world w ttl (target w) rt) as (En & To & Sp & Cl & Dl).
  repeat split; trivial.
  destruct (fst (refresh ttl (target w) rt w)); [now left | now right].
Qed.

(** Calls that each arrive later than the cache lifetime after the one
    before, on a clock that does not run backwards, all run the tool. *)
Lemma serve_all_probe ttl rt gaps :
  forall w,
    configured w ttl rt ->
    (forall k c t, 0 <= elapsed (tool w k c t)) ->
    Forall (fun gap => 0 <= gap /\ ttl < gap) gaps ->
    (forall gap, hd_error gaps = Some gap ->
                 speedtest_cache_timeout w < clock w + gap) ->
    List.length (spawned (serve gaps w)) =
      (List.length (spawned w) + List.length gaps)%nat.
Proof.
  induction gaps as [|gap rest IH]; intros w C El Gaps Stale; cbn [serve].
  - cbn. lia.
  - inversion Gaps as [|? ? [G0 G1] Rest]; subst.
    set (w0 := with_clock (clock w + gap) w).
    assert (C0 : configured w0 ttl rt) by now apply (configured_environ w).
    assert (Lt : speedtest_cache_timeout w0 < clock w0)
      by (cbn; now apply Stale).
    destruct (stale_call_world _ _ _ C0 Lt) as (En & To & Sp & Cl & Dl).
    rewrite IH.
    + rewrite Sp, length_app. cbn. lia.
    + now apply (configured_environ w0).
    + intros k c t. rewrite To. apply El.
    + exact Rest.
    + intros g' Hd. destruct rest as [|g'' rest']; [discriminate|].
      injection Hd as ->. inversion Rest as [|? ? [G2 G3] _]; subst.
      pose proof (El (List.length (spawned w0)) (build_cmd (target w0)) (Some rt))
        as El0.
      change (tool w) with (tool w0) in El0.
      rewrite <- elapsed_next_run in El0.
      destruct Dl as [Dl|Dl]; rewrite Dl; lia.
Qed.

(** C8, amended: with a cache lifetime that is negative, every call
    runs the tool; with a cache lifetime of zero, every call does that
    arrives strictly later than the call before was answered. The clock
    is not to run backwards and the cache is to be out of date when the
    first call arrives. *)
Theorem no_caching_without_lifetime gaps w ttl rt :
  configured w ttl rt ->
  ttl <= 0 ->
  (forall k c t, 0 <= elapsed (tool w k c t)) ->
  Forall (fun gap => 0 <= gap /\ (ttl = 0 -> 0 < gap)) gaps ->
  (forall gap, hd_error gaps = Some gap ->
               speedtest_cache_timeout w < clock w + gap) ->
  List.length (spawned (serve gaps w)) =
    (List.length (spawned w) + List.length gaps)%nat.
Proof.
  intros C Ttl El Gaps Stale. apply (serve_all_probe ttl rt); trivial.
  eapply Forall_impl; [|exact Gaps]. cbn. intros g [G0 G1]. lia.
Qed.


(** ** Worker threads *)

(** A worker that is left alone for its three moves does what
    [record_speedtest] does. *)
Lemma worker_alone w :
  let '(p1, w1) := thread_step AtEntry w in
  let '(p2, w2) := thread_step p1 w1 in
  let '(p3, w3) := thread_step p2 w2 in
  (p3, w3) = (Served (fst (record_speedtest w)), snd (record_speedtest w)).
Proof.
  unfold thread_step at 1. cbn [advance].
  unfold enter, record_speedtest, os_getenv, time_time, get_cache_timeout.
  mrun.
  destruct (py_int (env_value w "SPEEDTEST_CACHE_TIMEOUT" (VInt 900)));
    mrun; [|reflexivity].
  destruct (py_int (env_value w "SPEEDTEST_RUN_TIMEOUT" (VInt 90)));
    mrun; [|reflexivity].
  destruct (speedtest_cache_timeout w <? clock w).
  - unfold thread_step. cbn [advance]. mrun.
    match goal with
    | |- context [refresh ?c ?s ?t w] =>
        destruct (refresh c s t w) as [[[]|e] w1]; reflexivity
    end.
  - reflexivity.
Qed.

Lemma pool_step_at done p rest w :
  pool_step (List.length done) (done ++ p :: rest)%list w =
    ((done ++ fst (thread_step p w) :: rest)%list, snd (thread_step p w)).
Proof.
  induction done as [|q done IH]; cbn [List.length app pool_step].
  - now destruct (thread_step p w).
  - now rewrite IH.
Qed.

(** Three moves in a row of the worker that comes after [done]. *)
Lemma pool_serves_one done rest later w :
  let i := List.length done in
  run_schedule (i :: i :: i :: later) (done ++ AtEntry :: rest)%list w =
    run_schedule later
      (done ++ Served (fst (record_speedtest w)) :: rest)%list
      (snd (record_speedtest w)).
Proof.
  intros i. subst i. pose proof (worker_alone w) as A.
  cbn [run_schedule]. rewrite pool_step_at.
  destruct (thread_step AtEntry w) as [p1 w1]. cbn [fst snd].
  rewrite pool_step_at.
  destruct (thread_step p1 w1) as [p2 w2]. cbn [fst snd].
  rewrite pool_step_at.
  destruct (thread_step p2 w2) as [p3 w3]. cbn [fst snd].
  now injection A as -> ->.
Qed.

(** While the cache is in date, workers served one by one all get the
    registry as it is and leave the world as it is. *)
Lemma pool_serves_cached ttl rt n :
  forall done w,
    configured w ttl rt ->
    clock w <= speedtest_cache_timeout w ->
    run_schedule (one_by_one (List.length done) n)
                 (done ++ repeat AtEntry n)%list w =
      ((done ++ repeat (Served (Ret (registry w))) n)%list, w).
Proof.
  induction n as [|n IH]; intros done w C Le; cbn [one_by_one repeat].
  - reflexivity.
  - rewrite (pool_serves_one done _ _ w).
    rewrite (record_speedtest_cached_answer _ _ _ C Le). cbn [fst snd].
    specialize (IH (done ++ [Served (Ret (registry w))])%list w C Le).
    rewrite length_app, Nat.add_1_r, <- !app_assoc in IH. exact IH.
Qed.

(** ** Worker threads, with time passing *)

Lemma enter_cached w ttl rt :
  configured w ttl rt ->
  clock w <= speedtest_cache_timeout w ->
  thread_step AtEntry w = (AtReturn, w).
Proof.
  intros [C R] Le. apply Z.ltb_ge in Le. unfold thread_step. cbn [advance].
  unfold enter, os_getenv, time_time, get_cache_timeout. mrun.
  rewrite C. mrun. rewrite R. mrun. now rewrite Le.
Qed.

Lemma enter_stale w ttl rt :
  configured w ttl rt ->
  speedtest_cache_timeout w < clock w ->
  thread_step AtEntry w = (AtRefresh ttl (target w) rt, w).
Proof.
  intros [C R] Lt. apply Z.ltb_lt in Lt. unfold thread_step. cbn [advance].
  unfold enter, os_getenv, time_time, get_cache_timeout. mrun.
  rewrite C. mrun. rewrite R. mrun. now rewrite Lt.
Qed.

Lemma thread_step_return w :
  thread_step AtReturn w = (Served (Ret (registry w)), w).
Proof. reflexivity. Qed.

Lemma thread_step_served r w : thread_step (Served r) w = (Served r, w).
Proof. reflexivity. Qed.

Lemma total_nonneg (later : list (Z * nat)) :
  Forall (fun s => 0 <= fst s) later -> 0 <= total (map fst later).
Proof.
  induction 1 as [|s later S _ IH]; cbn; [lia|].
  fold (total (map fst later)). lia.
Qed.

Lemma with_clock_same w : with_clock (clock w) w = w.
Proof. now destruct w. Qed.

(** A clock that stands still is the case of no time passing. *)
Lemma run_timed_still schedule :
  forall pool w,
    run_timed (map (pair 0) schedule) pool w = run_schedule schedule pool w.
Proof.
  induction schedule as [|i later IH]; intros pool w; cbn [map run_timed run_schedule].
  - reflexivity.
  - rewrite Z.add_0_r, with_clock_same.
    destruct (pool_step i pool w) as [pool' w']. apply IH.
Qed.

(** While the cache is in date, workers served one by one, with time
    passing before each of their moves, all get the registry as it is,
    and nothing but the clock changes. *)
Lemma timed_serves_cached ttl rt n :
  forall done later w,
    configured w ttl rt ->
    map snd later = one_by_one (List.length done) n ->
    Forall (fun s => 0 <= fst s) later ->
    clock w + total (map fst later) <= speedtest_cache_timeout w ->
    run_timed later (done ++ repeat AtEntry n)%list w =
      ((done ++ repeat (Served (Ret (registry w))) n)%list,
       with_clock (clock w + total (map fst later)) w).
Proof.
  induction n as [|n IH]; intros done later w C Order Gaps Le;
    cbn [one_by_one repeat] in *.
  - destruct later; [|discriminate]. cbn. now rewrite Z.add_0_r, with_clock_same.
  - destruct later as [|[a i] [|[b j] [|[c k] rest]]]; try discriminate.
    cbn [map fst snd] in *. injection Order as -> -> -> Order.
    inversion Gaps as [|? ? Ga Gaps1]; subst.
    inversion Gaps1 as [|? ? Gb Gaps2]; subst.
    inversion Gaps2 as [|? ? Gc Grest]; subst.
    pose proof (total_nonneg _ Grest) as T.
    cbn [total fold_right fst] in *. fold (total (map fst rest)) in *.
    cbn [run_timed]. rewrite pool_step_at.
    rewrite (enter_cached (with_clock (clock w + a) w) ttl rt);
      [| exact C | cbn; lia].
    cbn [fst snd]. rewrite pool_step_at, thread_step_return. cbn [fst snd].
    rewrite pool_step_at, thread_step_served. cbn [fst snd].
    set (w' := with_clock _ (with_clock _ (with_clock _ w))).
    change (registry (with_clock (clock (with_clock (clock w + a) w) + b)
                        (with_clock (clock w + a) w)))
      with (registry w').
    specialize (IH (done ++ [Served (Ret (registry w'))])%list rest w').
    rewrite length_app, Nat.add_1_r, <- !app_assoc in IH. cbn [app] in IH.
    rewrite IH; trivial.
    + subst w'. cbn [registry with_clock clock]. f_equal.
      unfold with_clock. cbn. f_equal. lia.
    + subst w'. cbn. lia.
Qed.

(** C9, amended: calls that arrive after the cache ran out and are
    served one after the other, with whatever time passing before each
    move of each worker, start one run of the tool, that of the first
    call, and are all answered with the registry that its refresh leaves,
    as long as that refresh returns and the time that passes after it is
    within the cache lifetime. No lock is taken, and calls that overlap
    can each start a run of their own. *)
Theorem calls_in_turn_probe_once n w ttl rt g0 g1 g2 later w1 :
  configured w ttl rt ->
  speedtest_cache_timeout w < clock w ->
  0 <= g0 -> 0 <= g2 ->
  Forall (fun s => 0 <= fst s) later ->
  map snd later = one_by_one 1 n ->
  refresh ttl (target w) rt (with_clock (clock w + g0 + g1) w) = (Ret tt, w1) ->
  g2 + total (map fst later) <= ttl ->
  run_timed ((g0, 0%nat) :: (g1, 0%nat) :: (g2, 0%nat) :: later)
            (repeat AtEntry (S n)) w =
    (repeat (Served (Ret (registry w1))) (S n),
     with_clock (clock w1 + g2 + total (map fst later)) w1) /\
  spawned w1 = (spawned w ++ [probe_cmd w rt])%list.
Proof.
  intros C Lt G0 G2 Gaps Order Run Le.
  pose proof (total_nonneg _ Gaps) as T.
  destruct (refresh_world (with_clock (clock w + g0 + g1) w) ttl (target w) rt)
    as (En & _ & Sp & _ & Dl).
  rewrite Run in En, Sp, Dl. cbn [fst snd] in En, Sp, Dl. split; [|exact Sp].
  cbn [run_timed repeat pool_step].
  rewrite (enter_stale (with_clock (clock w + g0) w) ttl rt);
    [| exact C | cbn; lia].
  change (target (with_clock (clock w + g0) w)) with (target w).
  change (with_clock (clock (with_clock (clock w + g0) w) + g1)
            (with_clock (clock w + g0) w))
    with (with_clock (clock w + g0 + g1) w).
  unfold thread_step at 1. cbn [advance]. mrun. rewrite Run.
  rewrite thread_step_return.
  set (w2 := with_clock (clock w1 + g2) w1).
  pose proof (timed_serves_cached ttl rt n [Served (Ret (registry w1))] later w2)
    as Rest.
  cbn [List.length app] in Rest. change (registry w2) with (registry w1) in *.
  rewrite Rest; trivial.
  - apply (configured_environ w); trivial.
  - subst w2. cbn. lia.
Qed.

End Cache.

(** * Calls that overlap *)

Section Overlap.
Context `{Python}.

Lemma run_schedule_app s1 s2 :
  forall pool w,
    run_schedule (s1 ++ s2) pool w =
      run_schedule s2 (fst (run_schedule s1 pool w)) (snd (run_schedule s1 pool w)).
Proof.
  induction s1 as [|i s1 IH]; intros pool w; cbn [app run_schedule fst snd].
  - reflexivity.
  - destruct (pool_step i pool w) as [pool' w']. apply IH.
Qed.

Lemma settled_step p w :
  settled p = true ->
  settled (fst (thread_step p w)) = true /\ snd (thread_step p w) = w.
Proof. destruct p; try discriminate; intros _; now split. Qed.

Lemma settled_pool_step i :
  forall pool w,
    forallb settled pool = true ->
    forallb settled (fst (pool_step i pool w)) = true /\
    snd (pool_step i pool w) = w.
Proof.
  induction i as [|i IH]; intros [|p pool] w; cbn [pool_step forallb];
    try (now split); intros S; apply andb_true_iff in S as [Sp Spool].
  - destruct (settled_step p w Sp) as [Sp' W].
    destruct (thread_step p w) as [p' w']. cbn [fst snd forallb] in *.
    now rewrite Sp', Spool.
  - destruct (IH pool w Spool) as [S' W].
    destruct (pool_step i pool w) as [pool' w']. cbn [fst snd forallb] in *.
    now rewrite Sp, S'.
Qed.

(** Workers that are past their refresh start no run of the tool. *)
Lemma settled_run_schedule schedule :
  forall pool w,
    forallb settled pool = true ->
    snd (run_schedule schedule pool w) = w.
Proof.
  induction schedule as [|i later IH]; intros pool w S; cbn [run_schedule].
  - reflexivity.
  - destruct (settled_pool_step i pool w S) as [S' W].
    destruct (pool_step i pool w) as [pool' w']. cbn [fst snd] in *. subst w'.
    now apply IH.
Qed.

(** All the workers pass the test of line 109 while the cache is out of
    date. *)
Lemma all_enter ttl rt w n :
  configured w ttl rt ->
  speedtest_cache_timeout w < clock w ->
  forall done,
    run_schedule (seq (List.length done) n) (done ++ repeat AtEntry n)%list w =
      ((done ++ repeat (AtRefresh ttl (target w) rt) n)%list, w).
Proof.
  intros [C R] Lt. apply Z.ltb_lt in Lt.
  assert (E : thread_step AtEntry w = (AtRefresh ttl (target w) rt, w)).
  { unfold thread_step. cbn [advance].
    unfold enter, os_getenv, time_time, get_cache_timeout. mrun.
    rewrite C. mrun. rewrite R. mrun. now rewrite Lt. }
  induction n as [|n IH]; intros done; cbn [seq repeat run_schedule].
  - reflexivity.
  - rewrite pool_step_at, E. cbn [fst snd].
    specialize (IH (done ++ [AtRefresh ttl (target w) rt])%list).
    rewrite length_app, Nat.add_1_r, <- !app_assoc in IH. exact IH.
Qed.

(** Each of them then runs the tool. *)
Lemma all_refresh ttl sid rt n :
  forall done w,
    forallb settled done = true ->
    let end_ := run_schedule (seq (List.length done) n)
                  (done ++ repeat (AtRefresh ttl sid rt) n)%list w in
    forallb settled (fst end_) = true /\
    List.length (spawned (snd end_)) = (List.length (spawned w) + n)%nat.
Proof.
  induction n as [|n IH]; intros done w S; cbn [seq repeat run_schedule].
  - rewrite app_nil_r. cbn [fst snd]. split; [exact S | lia].
  - rewrite pool_step_at.
    assert (T : settled (fst (thread_step (AtRefresh ttl sid rt) w)) = true /\
                snd (thread_step (AtRefresh ttl sid rt) w) =
                  snd (refresh ttl sid rt w)).
    { unfold thread_step. cbn [advance]. mrun.
      destruct (refresh ttl sid rt w) as [[[]|e] w1]; now split. }
    destruct T as [Sp W].
    destruct (thread_step (AtRefresh ttl sid rt) w) as [p' w1].
    cbn [fst snd] in *.
    destruct (refresh_world w ttl sid rt) as (_ & _ & Sp1 & _).
    rewrite <- W in Sp1.
    specialize (IH (done ++ [p'])%list w1).
    rewrite length_app, Nat.add_1_r, <- !app_assoc in IH. cbn [app] in IH.
    destruct IH as [S' L].
    { rewrite forallb_app. cbn. now rewrite S, Sp. }
    split; [exact S'|]. rewrite L, Sp1, length_app. cbn. lia.
Qed.

(** X21: without a lock, [n] calls that all pass the test before the first
    refresh begins run the tool [n] times. *)
Lemma overlapping_calls_all_probe n w ttl rt :
  configured w ttl rt ->
  speedtest_cache_timeout w < clock w ->
  List.length
    (spawned (snd (run_schedule (seq 0 n ++ seq 0 n ++ seq 0 n)
                     (repeat AtEntry n) w))) =
    (List.length (spawned w) + n)%nat.
Proof.
  intros C Lt. rewrite run_schedule_app.
  pose proof (all_enter ttl rt w n C Lt []) as E. cbn [List.length app] in E.
  rewrite E. cbn [fst snd]. rewrite run_schedule_app.
  destruct (all_refresh ttl (target w) rt n [] w eq_refl) as [S L].
  cbn [List.length app] in S, L.
  now rewrite (settled_run_schedule _ _ _ S).
Qed.

End Overlap.

(** * The program run on examples *)

Section Examples.
Import Sample.
#[local] Existing Instance Sample.python.

(** The constants of the examples are the quotients they stand for. *)
Example constants_are_nearest :
  ten_pow_minus_6 = fdiv (float_of_Z 1) (float_of_Z 1000000) /\
  f1_5 = fdiv (float_of_Z 3) (float_of_Z 2) /\
  f10_2 = fdiv (float_of_Z 102) (float_of_Z 10).
Proof. repeat split. Qed.

Lemma timeout_leaves_run_speedtest_witness :
  let w := answering 90 TimedOut 0 (-1) in
  run_speedtest None (Some 90) w =
    (Raise TimeoutExpired, started w base_cmd (Some 90)).
Proof.
  intros w. apply (timeout_leaves_run_speedtest w None (Some 90)).
  reflexivity.
Defined.

(** The handler does not catch the exception either. *)
Example timeout_leaves_record_speedtest :
  fst (record_speedtest (answering 90 TimedOut 0 (-1))) = Raise TimeoutExpired.
Proof. reflexivity. Qed.

(** Scenario A. *)
Lemma result_event_bits_witness :
  fst (run_speedtest None (Some 90) (answering 20 (Exit0 result_text) 0 (-1))) =
    Ret (VInt 1234, VFloat f1_5, VFloat f10_2,
         VInt 100000000, VInt 10000000, VInt 1).
Proof.
  apply (result_event_bits (answering 20 (Exit0 result_text) 0 (-1))
           None (Some 90) result_text result_value (VInt 1234) 1234
           (VFloat f1_5) (VFloat f10_2) 12500000 1250000);
    reflexivity.
Defined.

Example float_bandwidth_is_multiplied :
  bytes_to_bits (VFloat f1_5) = Ret (VFloat (float_of_Z 12)).
Proof. reflexivity. Qed.

(** Scenario B. *)
Lemma unusable_output_gives_zeros_witness :
  fst (run_speedtest None (Some 90)
         (answering 3 (ExitFail 2 garbage_text) 0 (-1))) = Ret zeros.
Proof.
  apply (unusable_output_gives_zeros
           (answering 3 (ExitFail 2 garbage_text) 0 (-1))
           None (Some 90) garbage_text).
  - reflexivity.
  - left. reflexivity.
Defined.

Example error_payload_gives_zeros :
  fst (run_speedtest None (Some 90)
         (answering 3 (ExitFail 2 error_text) 0 (-1))) = Ret zeros.
Proof. reflexivity. Qed.

(** C5 as stated fails: an object whose ["type"] is ["log"] and that has
    no ["timestamp"] is a log event, and [run_speedtest] raises on it. *)
Lemma bare_log_event_raises :
  let w := answering 20 (Exit0 bare_log_text) 0 (-1) in
  tool_output w base_cmd (Some 90) = Some bare_log_text /\
  json_loads bare_log_text = Parsed bare_log_value /\
  event_of_type "log" bare_log_value = true /\
  fst (run_speedtest None (Some 90) w) = Raise (KeyError "timestamp") /\
  fst (run_speedtest None (Some 90) w) <> Ret zeros.
Proof. repeat split; try reflexivity. discriminate. Qed.

(** Scenario C. *)
Lemma log_event_gives_zeros_witness :
  let w := answering 20 (Exit0 log_text) 0 (-1) in
  run_speedtest None (Some 90) w =
    (Ret zeros,
     with_logged
       [(INFO, "2024-05-01T10:00:00Z - Starting test");
        (ERROR, "Successfull speedtest had no json result.")]
       (started w base_cmd (Some 90))).
Proof.
  intros w.
  exact (log_event_gives_zeros w None (Some 90) log_text log_value
           (VStr "2024-05-01T10:00:00Z") (VStr "Starting test")
           eq_refl eq_refl eq_refl eq_refl eq_refl).
Defined.

Lemma result_event_extraction_raises_witness :
  exists e,
    fst (run_speedtest None (Some 90)
           (answering 20 (Exit0 no_ping_text) 0 (-1))) = Raise e /\
    extraction_error e = true.
Proof.
  apply (result_event_extraction_raises
           (answering 20 (Exit0 no_ping_text) 0 (-1))
           None (Some 90) no_ping_text no_ping_value); try reflexivity.
  right. right. left. reflexivity.
Defined.

Example missing_ping_is_a_key_error :
  fst (run_speedtest None (Some 90)
         (answering 20 (Exit0 no_ping_text) 0 (-1))) = Raise (KeyError "ping").
Proof. reflexivity. Qed.

(** C2 as stated fails: at [now == valid_until] no run is started. *)
Lemma no_refresh_at_deadline :
  let w := answering 20 (Exit0 result_text) 1000 1000 in
  clock w = speedtest_cache_timeout w /\
  record_speedtest w = (Ret zero_registry, w) /\
  probes record_speedtest w = 0%nat /\
  probes record_speedtest w <> 1%nat.
Proof. repeat split. discriminate. Qed.

Lemma refresh_only_past_deadline_witness :
  probes record_speedtest (answering 20 (Exit0 result_text) 1001 1000) = 1%nat.
Proof.
  apply (refresh_only_past_deadline
           (answering 20 (Exit0 result_text) 1001 1000) 900 90).
  split; reflexivity.
Defined.

(** The first call is made at 0; a second call at 0 and one at 500
    (Scenario D) are answered from the cache. *)
Lemma same_now_one_probe_witness :
  let w := answering 20 (Exit0 result_text) 0 (-1) in
  let w1 := snd (record_speedtest w) in
  spawned w1 = [(base_cmd, Some 90)] /\
  record_speedtest (with_clock 0 w1) = (Ret measured, with_clock 0 w1) /\
  record_speedtest (with_clock 500 w1) = (Ret measured, with_clock 500 w1).
Proof.
  intros w w1.
  assert (C : configured w 900 90) by (split; reflexivity).
  assert (Lt : speedtest_cache_timeout w < clock w) by reflexivity.
  assert (Run : record_speedtest w = (Ret measured, w1)) by reflexivity.
  destruct (same_now_one_probe w 900 90 measured w1 C Lt Run)
    as (Sp & Same & Hit).
  split; [exact Sp|]. split.
  - apply Same; [lia | cbn; lia].
  - apply Hit. cbn. lia.
Defined.

(** Scenario E holds for a probe that takes no time, and fails for one
    that takes 20: the deadline is then 920, and the call at 901 is
    answered from the cache. *)
Example scenario_E_instant_probe :
  let w1 := snd (record_speedtest (answering 0 (Exit0 result_text) 0 (-1))) in
  speedtest_cache_timeout w1 = 900 /\
  probes record_speedtest (with_clock 901 w1) = 1%nat.
Proof. split; reflexivity. Qed.

Example scenario_E_slow_probe :
  let w1 := snd (record_speedtest (answering 20 (Exit0 result_text) 0 (-1))) in
  speedtest_cache_timeout w1 = 920 /\
  probes record_speedtest (with_clock 901 w1) = 0%nat.
Proof. split; reflexivity. Qed.



(** C8 as stated fails: with a lifetime of zero, a call that reads the
    clock where the refresh before it left it runs no probe. *)
Lemma zero_lifetime_same_reading_cached :
  let w := world (ttl_env "0") (always 20 (Exit0 result_text)) 0 0 in
  configured w 0 90 /\
  List.length (spawned (serve [1; 0] w)) = 1%nat /\
  List.length (spawned (serve [1; 0] w)) <> 2%nat.
Proof. repeat split. discriminate. Qed.

Lemma no_caching_without_lifetime_witness :
  List.length
    (spawned (serve [1; 1; 5]
                (world (ttl_env "0") (always 20 (Exit0 result_text)) 0 0))) =
    3%nat.
Proof.
  apply (no_caching_without_lifetime [1; 1; 5]
           (world (ttl_env "0") (always 20 (Exit0 result_text)) 0 0) 0 90).
  - split; reflexivity.
  - lia.
  - intros k c t. cbn. lia.
  - repeat constructor; lia.
  - intros gap [= <-]. cbn. lia.
Defined.

Example negative_lifetime_no_gap :
  List.length
    (spawned (serve [0; 0; 0]
                (world (ttl_env "-5") (always 20 (Exit0 result_text)) 0 (-1)))) =
    3%nat.
Proof. reflexivity. Qed.

(** C9 as stated fails: two workers that both pass the test of line 109
    before either ends its refresh both run the tool. *)
Lemma overlapping_calls_both_probe :
  let w := answering 20 (Exit0 result_text) 0 (-1) in
  let end_ := run_schedule [0; 1; 0; 1; 0; 1]%nat [AtEntry; AtEntry] w in
  forallb is_served (fst end_) = true /\
  spawned (snd end_) = [(base_cmd, Some 90); (base_cmd, Some 90)] /\
  List.length (spawned (snd end_)) <> 1%nat.
Proof. repeat split. discriminate. Qed.

(** Three calls in turn: the refresh of the first one begins at 1 and
    ends at 21, and the last move is made 810 later. *)
Lemma calls_in_turn_probe_once_witness :
  let w := answering 20 (Exit0 result_text) 0 (-1) in
  let w1 := snd (refresh 900 None 90 (with_clock 1 w)) in
  let later : list (Z * nat) :=
    [(3, 1%nat); (0, 1%nat); (0, 1%nat); (100, 2%nat); (5, 2%nat); (700, 2%nat)] in
  run_timed ((0, 0%nat) :: (1, 0%nat) :: (2, 0%nat) :: later)
            (repeat AtEntry 3) w =
    (repeat (Served (Ret measured)) 3, with_clock (21 + 2 + 808) w1) /\
  spawned w1 = [(base_cmd, Some 90)].
Proof.
  intros w w1 later.
  assert (G : Forall (fun s : Z * nat => 0 <= fst s) later)
    by (repeat constructor; cbn; lia).
  assert (T : 2 + total (map fst later) <= 900) by (cbn; lia).
  assert (Z0 : 0 <= 0) by lia. assert (Z2 : 0 <= 2) by lia.
  exact (calls_in_turn_probe_once 2 w 900 90 0 1 2 later w1
           (conj eq_refl eq_refl) eq_refl Z0 Z2 G eq_refl eq_refl T).
Defined.

(** The tool hangs: both calls at 0 run it, and both raise. *)
Lemma hung_probe_runs_on_every_call_witness :
  let w := answering 90 TimedOut 0 (-1) in
  let w1 := with_clock 0 (snd (record_speedtest w)) in
  fst (record_speedtest w) = Raise TimeoutExpired /\
  fst (record_speedtest w1) = Raise TimeoutExpired /\
  spawned (snd (record_speedtest w1)) =
    [(base_cmd, Some 90); (base_cmd, Some 90)].
Proof.
  intros w w1.
  exact (hung_probe_runs_on_every_call w 900 90
           (conj eq_refl eq_refl) eq_refl eq_refl eq_refl).
Defined.

End Examples.

(** * More on the probe runner *)

Section Command.

Lemma pinned_cmd server_id :
  build_cmd server_id =
    match pinned server_id with
    | Some s => (base_cmd ++ [("--server-id=" ++ s)%string])%list
    | None => base_cmd
    end.
Proof. now destruct server_id as [[|a s]|]. Qed.

(** X1: two server identifiers give the same command line exactly when
    they name the same server, an empty identifier naming none: the empty
    identifier is dropped, and no other one is. *)
Theorem build_cmd_names_the_server a b :
  build_cmd a = build_cmd b <-> pinned a = pinned b.
Proof.
  rewrite !pinned_cmd. split.
  - destruct (pinned a) as [s|], (pinned b) as [t|]; trivial.
    + intros E. apply app_inv_head in E. now injection E as ->.
    + intros E. rewrite <- (app_nil_r base_cmd) in E at 2.
      apply app_inv_head in E. discriminate.
    + intros E. rewrite <- (app_nil_r base_cmd) in E at 1.
      apply app_inv_head in E. discriminate.
  - now intros ->.
Qed.

End Command.

#[local] Instance logged_more_preorder : PreOrder logged_more.
Proof.
  split.
  - intros w. split; [reflexivity|]. exists []. now rewrite app_nil_r.
  - intros a b c [Sab [l Lab]] [Sbc [m Lbc]]. split.
    + now transitivity b.
    + exists (l ++ m)%list. now rewrite Lbc, Lab, app_assoc.
Qed.

Section RunnerEffects.
Context `{Python}.

Lemma more_log_error msg : keeps logged_more (log_error msg).
Proof. intros w. split; [repeat split|]. now eexists. Qed.

Lemma more_log_info msg : keeps logged_more (log_info msg).
Proof. intros w. split; [repeat split|]. now eexists. Qed.

Ltac more :=
  repeat first
    [ apply keeps_ret | apply keeps_lift | apply keeps_raise
    | apply more_log_error | apply more_log_info
    | apply keeps_bind; [| intros ?]
    | match goal with |- keeps _ (if ?b then _ else _) => destruct b end ].

Lemma more_read_data data : keeps logged_more (read_data data).
Proof. unfold read_data, no_result. more. Qed.

Lemma more_read_output out : keeps logged_more (read_output out).
Proof.
  intros w. destruct (json_loads out) as [data| |] eqn:J.
  - rewrite (read_output_json _ _ _ J). apply more_read_data.
  - rewrite (read_output_garbage _ _ J). unfold no_result. revert w. more.
  - rewrite (read_output_too_deep _ _ J). reflexivity.
Qed.

(** X2: whatever the tool does, one call of [run_speedtest] starts it
    once, with the command line of [build_cmd] and the timeout it was
    given; it adds to the log and erases nothing from it, and it writes
    neither a gauge nor the deadline. *)
Theorem run_speedtest_effects server_id timeout w :
  let w' := snd (run_speedtest server_id timeout w) in
  spawned w' = (spawned w ++ [(build_cmd server_id, timeout)])%list /\
  clock w' = clock w + elapsed (next_run w (build_cmd server_id) timeout) /\
  registry w' = registry w /\
  speedtest_cache_timeout w' = speedtest_cache_timeout w /\
  exists lines, logged w' = (logged w ++ lines)%list.
Proof.
  assert (M : logged_more (started w (build_cmd server_id) timeout)
                (snd (run_speedtest server_id timeout w))).
  { unfold run_speedtest. mrun.
    destruct (how (next_run w (build_cmd server_id) timeout))
      as [o|c o| | |] eqn:E.
    - rewrite (run_tool_exit0 _ _ _ _ E). apply more_read_output.
    - destruct (json_loads o) as [v| |] eqn:J.
      + rewrite (run_tool_fail_json _ _ _ _ _ _ E J). apply more_read_output.
      + rewrite (run_tool_fail_garbage _ _ _ _ _ E J).
        split; [repeat split|]. now eexists.
      + rewrite (run_tool_fail_too_deep _ _ _ _ _ E J). reflexivity.
    - rewrite (run_tool_timeout _ _ _ E). reflexivity.
    - rewrite (run_tool_spawn_failed _ _ _ E). reflexivity.
    - rewrite (run_tool_refused _ _ _ E). reflexivity. }
  destruct M as [(_ & _ & Cl & Dl & Rg & Sp) Lg]. cbn in *.
  repeat split; trivial.
Qed.

End RunnerEffects.

Section RunnerCases.
Context `{Python}.

(** X6: output that is JSON but not an object: a text or an array in which
    neither ["error"] nor ["type"] occurs gives the all-zero tuple, and
    everything else, a number, [null] and a boolean included, gives a
    [TypeError]. *)
Theorem non_object_output w server_id timeout out data :
  tool_output w (build_cmd server_id) timeout = Some out ->
  json_loads out = Parsed data ->
  is_object data = false ->
  fst (run_speedtest server_id timeout w) =
    match py_contains "error" data, py_contains "type" data with
    | Ret false, Ret false => Ret zeros
    | _, _ => Raise TypeError
    end.
Proof.
  intros T J O. rewrite (run_speedtest_reads _ _ _ _ _ T J).
  unfold read_data.
  destruct data as [| | | |s|items|]; try discriminate; try reflexivity.
  - cbn [py_contains]. mrun. destruct (is_substring "error" s); [reflexivity|].
    mrun. now destruct (is_substring "type" s).
  - cbn [py_contains]. mrun.
    destruct (existsb (is_str "error") items); [reflexivity|].
    mrun. now destruct (existsb (is_str "type") items).
Qed.

(** X7: an object with an ["error"] key gives the all-zero tuple whatever
    else it holds, a complete result included: two records go to the log
    at level ERROR, the second one the error as [str] shows it, and
    nothing else is done after the run of the tool. *)
Theorem error_payload_is_logged w server_id timeout out entries e :
  tool_output w (build_cmd server_id) timeout = Some out ->
  json_loads out = Parsed (VDict entries) ->
  lookup "error" entries = Some e ->
  run_speedtest server_id timeout w =
    (Ret zeros,
     with_logged
       (logged w ++ [(ERROR, "Socker error while speedtest.");
                     (ERROR, py_str e)])
       (started w (build_cmd server_id) timeout)).
Proof.
  intros T J E. rewrite (run_speedtest_reads _ _ _ _ _ T J).
  now rewrite (read_data_error _ _ _ E).
Qed.

(** X8: an object that is no error, no log event and no result event, that
    is without an ["error"] key and with a ["type"], if it has one, that
    is neither ["log"] nor ["result"], gives the all-zero tuple and one
    record in the log. *)
Theorem unknown_object_gives_zeros w server_id timeout out entries :
  tool_output w (build_cmd server_id) timeout = Some out ->
  json_loads out = Parsed (VDict entries) ->
  lookup "error" entries = None ->
  match lookup "type" entries with
  | Some ty => py_eq_str ty "log" = false /\ py_eq_str ty "result" = false
  | None => True
  end ->
  run_speedtest server_id timeout w =
    (Ret zeros,
     with_logged
       (logged w ++ [(ERROR, "Successfull speedtest had no json result.")])
       (started w (build_cmd server_id) timeout)).
Proof.
  intros T J E Ty. rewrite (run_speedtest_reads _ _ _ _ _ T J).
  now rewrite (read_data_other _ _ E Ty).
Qed.

(** X5: output that is not JSON is logged by the status of the run: after
    a status of zero as a successful run without result, after another
    status as an error of the tool. *)
Theorem garbage_is_logged_by_status w server_id timeout out :
  json_loads out = NotJSON ->
  let cmd := build_cmd server_id in
  (how (next_run w cmd timeout) = Exit0 out ->
   logged (snd (run_speedtest server_id timeout w)) =
     (logged w ++ [(ERROR, "Successfull speedtest had no json result.")])%list) /\
  (forall code,
     how (next_run w cmd timeout) = ExitFail code out ->
     logged (snd (run_speedtest server_id timeout w)) =
       (logged w ++ [(ERROR, "Speedtest CLI error not in JSON format.")])%list).
Proof.
  intros J cmd. subst cmd. unfold run_speedtest. mrun. split.
  - intros E. rewrite (run_tool_exit0 _ _ _ _ E).
    now rewrite (read_output_garbage _ _ J).
  - intros code E. now rewrite (run_tool_fail_garbage _ _ _ _ _ E J).
Qed.

(** X9: a result event is read without a word in the log, and each
    bandwidth is taken as [bytes_to_bits] makes it, whatever its type. *)
Theorem result_event_is_silent
    w server_id timeout out data id n j l dlb ulb d u :
  tool_output w (build_cmd server_id) timeout = Some out ->
  json_loads out = Parsed data ->
  event_of_type "result" data = true ->
  field data "server" "id" = Some id -> py_int id = Ret n ->
  field data "ping" "jitter" = Some j ->
  field data "ping" "latency" = Some l ->
  field data "download" "bandwidth" = Some dlb -> bytes_to_bits dlb = Ret d ->
  field data "upload" "bandwidth" = Some ulb -> bytes_to_bits ulb = Ret u ->
  run_speedtest server_id timeout w =
    (Ret (VInt n, j, l, d, u, VInt 1),
     started w (build_cmd server_id) timeout).
Proof.
  intros T J Ev Fid Hn Fj Fl Fd Hd Fu Hu.
  rewrite (run_speedtest_reads _ _ _ _ _ T J).
  now apply (read_data_fields _ data id n j l dlb ulb).
Qed.

Lemma returns_only_ret {A} (P : A -> Prop) (a : A) : P a -> returns_only P (ret a).
Proof. intros Pa w b. cbn. now intros [= <-]. Qed.

Lemma returns_only_bind {A B} (P : B -> Prop) (m : M A) (k : A -> M B) :
  (forall a, returns_only P (k a)) -> returns_only P (bind m k).
Proof.
  intros Hk w b. cbn. destruct (m w) as [[a|e] w1]; [apply Hk | discriminate].
Qed.

Lemma zeros_shape : zeros_or_success zeros.
Proof. now left. Qed.

Lemma success_shape n j l d u : zeros_or_success (VInt n, j, l, d, u, VInt 1).
Proof. right. now exists n, j, l, d, u. Qed.

Lemma read_data_shape data : returns_only zeros_or_success (read_data data).
Proof.
  unfold read_data, no_result.
  repeat first
    [ apply returns_only_ret; first [apply zeros_shape | apply success_shape]
    | apply returns_only_bind; intros ?
    | match goal with
      | |- returns_only _ (if ?b then _ else _) => destruct b
      end ].
Qed.

Lemma run_speedtest_shape server_id timeout :
  returns_only zeros_or_success (run_speedtest server_id timeout).
Proof.
  intros w t. unfold run_speedtest. mrun.
  destruct (run_tool (build_cmd server_id) timeout w) as [[[out|t0]|e] w1] eqn:R.
  - destruct (json_loads out) as [data| |] eqn:J.
    + rewrite (read_output_json _ _ _ J). apply read_data_shape.
    + rewrite (read_output_garbage _ _ J). cbn. intros [= <-]. apply zeros_shape.
    + rewrite (read_output_too_deep _ _ J). discriminate.
  - cbn. intros [= <-].
    assert (t0 = zeros) as ->; [|apply zeros_shape].
    unfold run_tool, try_except, check_output in R. revert R. mrun.
    destruct (how (next_run w (build_cmd server_id) timeout)); try discriminate.
    mrun. destruct (json_loads out) as [v| |] eqn:J.
    * rewrite (is_json_some _ _ J). discriminate.
    * rewrite (is_json_none _ J). cbn. now intros [= <- _].
    * rewrite (is_json_too_deep _ J). discriminate.
  - discriminate.
Qed.

(** X10: a tuple that [run_speedtest] returns is the all-zero tuple, or it
    has an integer for the server and the status 1: there is no failure
    with a measurement in it and no success without a server. *)
Theorem run_speedtest_returns_zeros_or_success server_id timeout w t :
  fst (run_speedtest server_id timeout w) = Ret t ->
  t = (VInt 0, VInt 0, VInt 0, VInt 0, VInt 0, VInt 0) \/
  exists n j l d u, t = (VInt n, j, l, d, u, VInt 1).
Proof.
  intros R. destruct (run_speedtest_shape _ _ _ _ R) as [->|S].
  - now left.
  - right. exact S.
Qed.

End RunnerCases.

(** * More on the refresh cache *)

Section CacheMore.
Context `{Python}.

Lemma number_to_float_overflow n e : number_to_float n = Raise e -> e = OverflowError.
Proof.
  destruct n as [k|x]; cbn; [|discriminate]. unfold int_to_float.
  destruct (float_of_Z k); try discriminate. now intros [= <-].
Qed.

(** X11: [bits_to_megabits] on every value: a number that fits a float
    gives the float of [round(x * 10**-6, 2)], an integer that is too
    large for a float gives an [OverflowError], and what is no number, a
    text such as [bytes_to_bits] makes of a text included, gives a
    [TypeError]. *)
Theorem bits_to_megabits_domain v :
  match as_number v with
  | Some n =>
      match number_to_float n with
      | Ret x =>
          bits_to_megabits v =
            Ret (VFloat (py_round (fmul x ten_pow_minus_6) 2))
      | Raise _ => bits_to_megabits v = Raise OverflowError
      end
  | None => bits_to_megabits v = Raise TypeError
  end.
Proof.
  unfold bits_to_megabits, py_mul.
  destruct (as_number v) as [n|] eqn:N; cbn [as_number]; [|reflexivity].
  destruct n as [k|y]; cbn [bind Monad_res number_to_float].
  - destruct (int_to_float k) as [x|e] eqn:F; [reflexivity|].
    now rewrite (number_to_float_overflow (NInt k) e F).
  - reflexivity.
Qed.

Lemma stale_call_probes w ttl rt :
  configured w ttl rt ->
  speedtest_cache_timeout w < clock w ->
  probes record_speedtest w = 1%nat.
Proof.
  intros C Lt. unfold probes.
  destruct (record_speedtest_stale _ _ _ C Lt) as [-> _].
  destruct (refresh_world w ttl (target w) rt) as (_ & _ & -> & _).
  rewrite length_app. cbn. lia.
Qed.

(** X15: a call that raises past the deadline has run the tool and leaves
    the deadline where it was: nothing of the failure is kept, and every
    later call runs the tool again. *)
Theorem failed_refresh_is_retried w ttl rt e :
  configured w ttl rt ->
  speedtest_cache_timeout w < clock w ->
  fst (record_speedtest w) = Raise e ->
  let w' := snd (record_speedtest w) in
  spawned w' = (spawned w ++ [probe_cmd w rt])%list /\
  speedtest_cache_timeout w' = speedtest_cache_timeout w /\
  forall now,
    speedtest_cache_timeout w < now ->
    probes record_speedtest (with_clock now w') = 1%nat.
Proof.
  intros C Lt Run w'. subst w'.
  destruct (record_speedtest_stale _ _ _ C Lt) as [W R]. rewrite Run in R.
  destruct (refresh_world w ttl (target w) rt) as (En & _ & Sp & _ & Dl).
  rewrite W.
  destruct (fst (refresh ttl (target w) rt w)) as [[]|e']; [discriminate|].
  split; [exact Sp|]. split; [exact Dl|].
  intros now Late. apply (stale_call_probes _ ttl rt).
  - now apply (configured_environ w).
  - cbn [with_clock speedtest_cache_timeout clock]. now rewrite Dl.
Qed.

(** X14: an environment from which [int] cannot read the cache lifetime or
    the bound on the run makes every call raise, before the clock is read:
    the tool is not run, and a cache that is in date is not served. *)
Theorem unreadable_configuration_raises w e :
  py_int (env_value w "SPEEDTEST_CACHE_TIMEOUT" (VInt 900)) = Raise e \/
  (exists ttl,
     py_int (env_value w "SPEEDTEST_CACHE_TIMEOUT" (VInt 900)) = Ret ttl /\
     py_int (env_value w "SPEEDTEST_RUN_TIMEOUT" (VInt 90)) = Raise e) ->
  record_speedtest w = (Raise e, w).
Proof.
  unfold record_speedtest, os_getenv. mrun.
  intros [C|(ttl & C & R)]; rewrite C; mrun; [reflexivity|].
  now rewrite R.
Qed.

(** X13: with none of the three variables in the environment, a refresh
    runs the tool with its five arguments and a timeout of 90, and a
    refresh that returns sets the deadline 900 after the end of the run. *)
Theorem defaults_without_environment w :
  environ w "SPEEDTEST_CACHE_TIMEOUT" = None ->
  environ w "SPEEDTEST_SERVER" = None ->
  environ w "SPEEDTEST_RUN_TIMEOUT" = None ->
  speedtest_cache_timeout w < clock w ->
  let w' := snd (record_speedtest w) in
  spawned w' = (spawned w ++ [(base_cmd, Some 90)])%list /\
  forall r, fst (record_speedtest w) = Ret r ->
            speedtest_cache_timeout w' = clock w' + 900.
Proof.
  intros Ec Es Er Lt w'. subst w'.
  assert (C : configured w 900 90).
  { unfold configured, env_value. now rewrite Ec, Er. }
  assert (T : target w = None).
  { unfold target, env_value. now rewrite Es. }
  destruct (record_speedtest_stale _ _ _ C Lt) as [W R]. rewrite W, R, T.
  destruct (refresh_world w 900 None 90) as (_ & _ & Sp & _ & Dl).
  split; [exact Sp|]. intros r.
  destruct (fst (refresh 900 None 90 w)); [|discriminate]. intros _. exact Dl.
Qed.


Lemma run_speedtest_keeps_registry sid timeout w :
  registry (snd (run_speedtest sid timeout w)) = registry w /\
  speedtest_cache_timeout (snd (run_speedtest sid timeout w)) =
    speedtest_cache_timeout w.
Proof.
  destruct (run_speedtest_world sid timeout w) as (_ & _ & _ & Dl & Rg & _).
  now split.
Qed.

(** X17: the six gauges are set one after the other: when [float] refuses
    the jitter of the tuple, the call raises with the server gauge already
    overwritten, the five other gauges as they were, and the deadline not
    moved. *)
Theorem gauges_are_set_one_by_one
    w ttl rt vs vj vp vd vu vst w1 xs md mu e :
  configured w ttl rt ->
  speedtest_cache_timeout w < clock w ->
  run_speedtest (target w) (Some rt) w = (Ret (vs, vj, vp, vd, vu, vst), w1) ->
  bits_to_megabits vd = Ret md ->
  bits_to_megabits vu = Ret mu ->
  reads_as vs xs ->
  py_float vj = Raise e ->
  let w' := snd (record_speedtest w) in
  fst (record_speedtest w) = Raise e /\
  registry w' = store g_server xs (registry w) /\
  speedtest_cache_timeout w' = speedtest_cache_timeout w.
Proof.
  intros C Lt Run Md Mu Rs Fj w'. subst w'.
  destruct (record_speedtest_stale _ _ _ C Lt) as [-> ->].
  destruct (run_speedtest_keeps_registry (target w) (Some rt) w) as [Rg Dl].
  rewrite Run in Rg, Dl. cbn [snd] in Rg, Dl.
  assert (E : exists lines,
             refresh ttl (target w) rt w =
               (Raise e,
                with_registry (store g_server xs (registry w1))
                  (with_logged lines w1))).
  { eexists. unfold refresh. mrun. rewrite Run. unfold publish. mrun.
    rewrite Md. mrun. rewrite Mu. mrun. unfold log_info at 1. cbv beta iota.
    rewrite (gauge_set_number _ _ _ _ Rs). cbv beta iota.
    unfold gauge_set at 1. mrun. rewrite Fj. reflexivity. }
  destruct E as [lines ->].
  cbn [fst snd registry with_registry with_logged speedtest_cache_timeout].
  now rewrite Rg, Dl.
Qed.

(** X16: a bandwidth that [bytes_to_bits] takes and [bits_to_megabits]
    refuses, such as a text, stops the refresh at its log line: the call
    raises with nothing logged by the handler, no gauge written and the
    deadline not moved. *)
Theorem refused_bandwidth_stops_refresh
    w ttl rt vs vj vp vd vu vst w1 e :
  configured w ttl rt ->
  speedtest_cache_timeout w < clock w ->
  run_speedtest (target w) (Some rt) w = (Ret (vs, vj, vp, vd, vu, vst), w1) ->
  bits_to_megabits vd = Raise e ->
  record_speedtest w = (Raise e, w1) /\
  registry w1 = registry w /\
  speedtest_cache_timeout w1 = speedtest_cache_timeout w.
Proof.
  intros C Lt Run Md.
  destruct (run_speedtest_keeps_registry (target w) (Some rt) w) as [Rg Dl].
  rewrite Run in Rg, Dl. cbn [snd] in Rg, Dl. split; [|now split].
  rewrite (record_speedtest_configured _ _ _ C).
  apply Z.ltb_lt in Lt. rewrite Lt.
  unfold refresh. mrun. rewrite Run. unfold publish. mrun. now rewrite Md.
Qed.

(** What a returned [publish] leaves: each gauge holds the float of its
    component. *)
Lemma publish_returned vs vj vp vd vu vst w w2 :
  publish (vs, vj, vp, vd, vu, vst) w = (Ret tt, w2) ->
  exists xs xj xp xd xu xst,
    py_float vs = Ret xs /\ py_float vj = Ret xj /\ py_float vp = Ret xp /\
    py_float vd = Ret xd /\ py_float vu = Ret xu /\ py_float vst = Ret xst /\
    registry w2 =
      {| server := xs; jitter := xj; ping := xp; download_speed := xd;
         upload_speed := xu; status := xst |}.
Proof.
  unfold publish, gauge_set. mrun.
  destruct (bits_to_megabits vd); mrun; [|discriminate].
  destruct (bits_to_megabits vu); mrun; [|discriminate].
  unfold log_info at 1. cbv beta iota.
  destruct (py_float vs) as [xs|]; mrun; [|discriminate].
  unfold put_gauge at 1. cbv beta iota.
  destruct (py_float vj) as [xj|]; mrun; [|discriminate].
  unfold put_gauge at 1. cbv beta iota.
  destruct (py_float vp) as [xp|]; mrun; [|discriminate].
  unfold put_gauge at 1. cbv beta iota.
  destruct (py_float vd) as [xd|]; mrun; [|discriminate].
  unfold put_gauge at 1. cbv beta iota.
  destruct (py_float vu) as [xu|]; mrun; [|discriminate].
  unfold put_gauge at 1. cbv beta iota.
  destruct (py_float vst) as [xst|]; mrun; [|discriminate].
  unfold put_gauge. intros [= <-].
  exists xs, xj, xp, xd, xu, xst. repeat split.
Qed.

(** X18: a call past the deadline that runs alone, no other request
    writing the gauges meanwhile, and that returns: in the registry it
    returns the status gauge is 1, or else all six gauges are zero. *)
Theorem returned_refresh_status w ttl rt r w' :
  configured w ttl rt ->
  speedtest_cache_timeout w < clock w ->
  record_speedtest w = (Ret r, w') ->
  status r = float_of_Z 1 \/ r = all_zero.
Proof.
  intros C Lt Run.
  destruct (refreshing_call _ _ _ _ _ C Lt Run) as (_ & _ & <- & _).
  rewrite (record_speedtest_configured _ _ _ C) in Run.
  apply Z.ltb_lt in Lt. rewrite Lt in Run. revert Run.
  unfold refresh, time_time, set_cache_timeout, make_wsgi_app. mrun.
  destruct (run_speedtest (target w) (Some rt) w) as [[t|e] w1] eqn:R;
    [|discriminate].
  pose proof (run_speedtest_shape _ _ _ _ (f_equal fst R)) as Shape.
  destruct t as [[[[[vs vj] vp] vd] vu] vst].
  destruct (publish (vs, vj, vp, vd, vu, vst) w1) as [[[]|e] w2] eqn:P;
    [|discriminate].
  destruct (int_to_float ttl); mrun; [|discriminate].
  intros [= _ <-]. cbn [registry with_cache_timeout].
  destruct (publish_returned _ _ _ _ _ _ _ _ P)
    as (xs & xj & xp & xd & xu & xst & Fs & Fj & Fp & Fd & Fu & Fst & ->).
  destruct Shape as [Z|(n & j & l & d & u & S)].
  - right. injection Z as -> -> -> -> -> ->.
    vm_compute in Fs, Fj, Fp, Fd, Fu, Fst.
    injection Fs as <-. injection Fj as <-. injection Fp as <-.
    injection Fd as <-. injection Fu as <-. injection Fst as <-. reflexivity.
  - left. injection S as -> -> -> -> -> ->.
    vm_compute in Fst. injection Fst as <-. reflexivity.
Qed.

End CacheMore.

(** * More on requests in a row and in parallel *)

Section Sequences.
Context `{Python}.

Ltac no_more := exists []; split; [now rewrite app_nil_r | cbn; lia].

Lemma one_call_spawns_at_most_once w :
  exists more,
    spawned (snd (record_speedtest w)) = (spawned w ++ more)%list /\
    (List.length more <= 1)%nat.
Proof.
  destruct (speedtest_cache_timeout w <? clock w) eqn:E.
  - unfold record_speedtest, os_getenv, time_time, get_cache_timeout. mrun.
    destruct (py_int (env_value w "SPEEDTEST_CACHE_TIMEOUT" (VInt 900)))
      as [ttl|]; mrun; [|no_more].
    destruct (py_int (env_value w "SPEEDTEST_RUN_TIMEOUT" (VInt 90)))
      as [rt|]; mrun; [|no_more].
    rewrite E.
    destruct (refresh_world w ttl
                (as_server (env_value w "SPEEDTEST_SERVER" VNone)) rt)
      as (_ & _ & Sp & _).
    match goal with
    | |- context [refresh ?c ?s ?t w] =>
        destruct (refresh c s t w) as [[[]|e] w1]; cbn [fst snd] in *;
          (eexists; split; [exact Sp | cbn; lia])
    end.
  - apply Z.ltb_ge in E. rewrite (record_speedtest_cached _ E). no_more.
Qed.

(** X19: whatever the environment, the clock and the tool do, the requests
    of a sequence start at most one run of the tool each, and no run that
    was started is forgotten. *)
Theorem at_most_one_probe_per_call gaps :
  forall w,
    exists more,
      spawned (serve gaps w) = (spawned w ++ more)%list /\
      (List.length more <= List.length gaps)%nat.
Proof.
  induction gaps as [|gap rest IH]; intros w; cbn [serve].
  - no_more.
  - destruct (one_call_spawns_at_most_once (with_clock (clock w + gap) w))
      as (m1 & S1 & L1).
    destruct (IH (snd (record_speedtest (with_clock (clock w + gap) w))))
      as (m2 & S2 & L2).
    exists (m1 ++ m2)%list. split.
    + rewrite S2, S1. cbn [spawned with_clock]. now rewrite app_assoc.
    + rewrite length_app. cbn [List.length]. lia.
Qed.

Lemma serve_cached ttl rt gaps :
  forall w,
    configured w ttl rt ->
    Forall (fun gap => 0 <= gap) gaps ->
    clock w + total gaps <= speedtest_cache_timeout w ->
    serve gaps w = with_clock (clock w + total gaps) w.
Proof.
  induction gaps as [|gap rest IH]; intros w C G Le; cbn [serve total fold_right] in *.
  - rewrite Z.add_0_r. now destruct w.
  - inversion G as [|? ? G0 Grest]; subst. fold (total rest) in *.
    assert (T : 0 <= total rest).
    { clear - Grest. induction Grest; cbn; [lia|]. fold (total l). lia. }
    set (w0 := with_clock (clock w + gap) w).
    assert (C0 : configured w0 ttl rt) by exact C.
    assert (Le0 : clock w0 <= speedtest_cache_timeout w0) by (cbn; lia).
    rewrite (record_speedtest_cached _ Le0).
    rewrite (IH w0 C0 Grest); [|cbn; lia].
    cbn [with_clock clock w0 environ tool speedtest_cache_timeout registry
         logged spawned]. unfold with_clock. f_equal. lia.
Qed.

(** X20: after a call that ran the tool and returned, the requests that
    follow are all answered from the cache, as long as the time that
    passes over them is within the cache lifetime: however many they are,
    no run is started and the gauges, the log and the deadline stay as
    they are. *)
Theorem calls_within_lifetime_are_cached w ttl rt r1 w1 gaps :
  configured w ttl rt ->
  speedtest_cache_timeout w < clock w ->
  record_speedtest w = (Ret r1, w1) ->
  Forall (fun gap => 0 <= gap) gaps ->
  total gaps <= ttl ->
  serve gaps w1 = with_clock (clock w1 + total gaps) w1 /\
  registry (serve gaps w1) = r1.
Proof.
  intros C Lt Run G Le.
  destruct (refreshing_call _ _ _ _ _ C Lt Run) as (En & _ & Rg & Dl).
  destruct (stale_call_world _ _ _ C Lt) as (_ & _ & _ & Cl & _).
  rewrite Run in Cl. cbn [snd] in Cl.
  assert (S : serve gaps w1 = with_clock (clock w1 + total gaps) w1).
  { apply (serve_cached ttl rt); trivial.
    - now apply (configured_environ w).
    - lia. }
  split; [exact S|]. now rewrite S.
Qed.

Lemma thread_step_potential p w :
  (List.length (spawned (snd (thread_step p w)))
   + (if settled (fst (thread_step p w)) then 0 else 1)
   <= List.length (spawned w) + (if settled p then 0 else 1))%nat.
Proof.
  destruct p as [|c s t| |r].
  - unfold thread_step. cbn [advance].
    unfold enter, os_getenv, time_time, get_cache_timeout. mrun.
    destruct (py_int (env_value w "SPEEDTEST_CACHE_TIMEOUT" (VInt 900)));
      mrun; [|cbn; lia].
    destruct (py_int (env_value w "SPEEDTEST_RUN_TIMEOUT" (VInt 90)));
      mrun; [|cbn; lia].
    destruct (speedtest_cache_timeout w <? clock w); cbn; lia.
  - unfold thread_step. cbn [advance]. mrun.
    destruct (refresh_world w c s t) as (_ & _ & Sp & _).
    destruct (refresh c s t w) as [[[]|e] w1]; cbn [fst snd settled] in *;
      rewrite Sp, length_app; cbn; lia.
  - cbn. lia.
  - cbn. lia.
Qed.

Lemma pool_step_potential i :
  forall pool w,
    (List.length (spawned (snd (pool_step i pool w)))
     + unsettled (fst (pool_step i pool w))
     <= List.length (spawned w) + unsettled pool)%nat.
Proof.
  unfold unsettled.
  induction i as [|i IH]; intros [|p pool] w; cbn [pool_step fst snd];
    try lia.
  - pose proof (thread_step_potential p w) as T.
    destruct (thread_step p w) as [p' w']. cbn [fst snd filter] in *.
    destruct (settled p), (settled p'); cbn [negb List.length] in *; lia.
  - specialize (IH pool w).
    destruct (pool_step i pool w) as [pool' w']. cbn [fst snd filter] in *.
    destruct (settled p); cbn [negb List.length]; lia.
Qed.

(** X22: however the moves of the workers are interleaved, the tool is run
    at most once for each request that has not yet got past its refresh. *)
Theorem at_most_one_probe_per_worker schedule :
  forall pool w,
    (List.length (spawned (snd (run_schedule schedule pool w)))
     <= List.length (spawned w) + unsettled pool)%nat.
Proof.
  induction schedule as [|i later IH]; intros pool w; cbn [run_schedule].
  - cbn. lia.
  - pose proof (pool_step_potential i pool w) as P.
    destruct (pool_step i pool w) as [pool' w']. cbn [fst snd] in P.
    specialize (IH pool' w'). lia.
Qed.

End Sequences.

(** * More examples *)

Section MoreExamples.
Import Sample.
#[local] Existing Instance Cases.python.

Lemma run_speedtest_raises_witness :
  let w := answering 20 (Exit0 bare_log_text) 0 (-1) in
  fst (run_speedtest None (Some 90) w) = Raise (KeyError "timestamp") /\
  extraction_error (KeyError "timestamp") = true.
Proof.
  intros w. split; [reflexivity|].
  exact (run_speedtest_raises None (Some 90) w (KeyError "timestamp") eq_refl).
Defined.

Lemma spawn_failure_leaves_run_speedtest_witness :
  let w := answering 0 SpawnFailed 0 (-1) in
  run_speedtest None (Some 90) w = (Raise OSError, started w base_cmd (Some 90)).
Proof.
  intros w.
  exact (spawn_failure_leaves_run_speedtest w None (Some 90) eq_refl).
Defined.

(** The tool answers [42], and it answers a text. *)
Lemma non_object_output_witness :
  fst (run_speedtest None (Some 90)
         (answering 1 (Exit0 Cases.number_text) 0 (-1))) = Raise TypeError /\
  fst (run_speedtest None (Some 90)
         (answering 1 (ExitFail 2 Cases.string_text) 0 (-1))) = Ret zeros /\
  fst (run_speedtest None (Some 90)
         (answering 1 (ExitFail 2 Cases.error_string_text) 0 (-1))) =
    Raise TypeError.
Proof.
  split; [|split].
  - exact (non_object_output (answering 1 (Exit0 Cases.number_text) 0 (-1))
             None (Some 90) Cases.number_text (VInt 42)
             eq_refl eq_refl eq_refl).
  - exact (non_object_output (answering 1 (ExitFail 2 Cases.string_text) 0 (-1))
             None (Some 90) Cases.string_text (VStr "no servers")
             eq_refl eq_refl eq_refl).
  - exact (non_object_output
             (answering 1 (ExitFail 2 Cases.error_string_text) 0 (-1))
             None (Some 90) Cases.error_string_text (VStr "socket error")
             eq_refl eq_refl eq_refl).
Defined.

(** A complete result that also carries an error is a failure. *)
Lemma error_payload_is_logged_witness :
  let w := answering 20 (Exit0 Cases.error_result_text) 0 (-1) in
  run_speedtest None (Some 90) w =
    (Ret zeros,
     with_logged [(ERROR, "Socker error while speedtest."); (ERROR, "Timeout")]
       (started w base_cmd (Some 90))).
Proof.
  intros w.
  exact (error_payload_is_logged w None (Some 90) Cases.error_result_text
           _ (VStr "Timeout") eq_refl eq_refl eq_refl).
Defined.

Lemma unknown_object_gives_zeros_witness :
  let w := answering 20 (Exit0 Cases.other_text) 0 (-1) in
  run_speedtest None (Some 90) w =
    (Ret zeros,
     with_logged [(ERROR, "Successfull speedtest had no json result.")]
       (started w base_cmd (Some 90))).
Proof.
  intros w.
  exact (unknown_object_gives_zeros w None (Some 90) Cases.other_text
           [("type", VStr "testStart")] eq_refl eq_refl eq_refl
           (conj eq_refl eq_refl)).
Defined.

Lemma garbage_is_logged_by_status_witness :
  logged (snd (run_speedtest None (Some 90)
                 (answering 3 (Exit0 garbage_text) 0 (-1)))) =
    [(ERROR, "Successfull speedtest had no json result.")] /\
  logged (snd (run_speedtest None (Some 90)
                 (answering 3 (ExitFail 2 garbage_text) 0 (-1)))) =
    [(ERROR, "Speedtest CLI error not in JSON format.")].
Proof.
  split.
  - exact (proj1 (garbage_is_logged_by_status
                    (answering 3 (Exit0 garbage_text) 0 (-1))
                    None (Some 90) garbage_text eq_refl) eq_refl).
  - exact (proj2 (garbage_is_logged_by_status
                    (answering 3 (ExitFail 2 garbage_text) 0 (-1))
                    None (Some 90) garbage_text eq_refl) 2 eq_refl).
Defined.

(** A bandwidth that is the text [fast] is taken eight times over. *)
Lemma result_event_is_silent_witness :
  let w := answering 20 (Exit0 Cases.text_bandwidth_text) 0 (-1) in
  run_speedtest None (Some 90) w =
    (Ret (VInt 1234, VFloat f1_5, VFloat f10_2,
          VStr "fastfastfastfastfastfastfastfast", VInt 10000000, VInt 1),
     started w base_cmd (Some 90)).
Proof.
  intros w.
  exact (result_event_is_silent w None (Some 90) Cases.text_bandwidth_text
           Cases.text_bandwidth_value (VInt 1234) 1234 (VFloat f1_5)
           (VFloat f10_2) (VStr "fast") (VInt 1250000)
           (VStr "fastfastfastfastfastfastfastfast") (VInt 10000000)
           eq_refl eq_refl eq_refl eq_refl eq_refl eq_refl eq_refl
           eq_refl eq_refl eq_refl eq_refl).
Defined.

Lemma run_speedtest_returns_zeros_or_success_witness :
  (VInt 1234, VFloat f1_5, VFloat f10_2, VInt 100000000, VInt 10000000, VInt 1) =
    (VInt 0, VInt 0, VInt 0, VInt 0, VInt 0, VInt 0) \/
  exists n j l d u,
    (VInt 1234, VFloat f1_5, VFloat f10_2, VInt 100000000, VInt 10000000, VInt 1) =
      (VInt n, j, l, d, u, VInt 1).
Proof.
  exact (run_speedtest_returns_zeros_or_success None (Some 90)
           (answering 20 (Exit0 result_text) 0 (-1)) _ eq_refl).
Defined.

Lemma default_configuration (e : ending) (s now deadline : Z) :
  configured (answering s e now deadline) 900 90.
Proof. split; reflexivity. Defined.

(** A tool that hangs is run again by every request. *)
Lemma failed_refresh_is_retried_witness :
  let w := answering 90 TimedOut 0 (-1) in
  let w' := snd (record_speedtest w) in
  spawned w' = [(base_cmd, Some 90)] /\
  speedtest_cache_timeout w' = -1 /\
  forall now, -1 < now -> probes record_speedtest (with_clock now w') = 1%nat.
Proof.
  intros w.
  exact (failed_refresh_is_retried w 900 90 TimeoutExpired
           (default_configuration _ _ _ _) eq_refl eq_refl).
Defined.

(** The cache lifetime is [soon]: the call raises though the cache is in
    date. *)
Lemma unreadable_configuration_raises_witness :
  let w := world (ttl_env "soon") (always 20 (Exit0 result_text)) 0 1000 in
  record_speedtest w = (Raise ValueError, w).
Proof.
  intros w.
  exact (unreadable_configuration_raises w ValueError (or_introl eq_refl)).
Defined.

Lemma defaults_without_environment_witness :
  let w := answering 20 (Exit0 result_text) 0 (-1) in
  let w' := snd (record_speedtest w) in
  spawned w' = [(base_cmd, Some 90)] /\
  forall r, fst (record_speedtest w) = Ret r ->
            speedtest_cache_timeout w' = clock w' + 900.
Proof.
  intros w.
  exact (defaults_without_environment w eq_refl eq_refl eq_refl eq_refl).
Defined.

(** The jitter is [null]: the server gauge alone is overwritten. *)
Lemma gauges_are_set_one_by_one_witness :
  let w := answering 20 (Exit0 Cases.null_jitter_text) 0 (-1) in
  let w' := snd (record_speedtest w) in
  fst (record_speedtest w) = Raise TypeError /\
  registry w' = store g_server (float_of_Z 1234) zero_registry /\
  speedtest_cache_timeout w' = -1.
Proof.
  intros w.
  exact (gauges_are_set_one_by_one w 900 90
           (VInt 1234) VNone (VFloat f10_2) (VInt 100000000) (VInt 10000000)
           (VInt 1) (snd (run_speedtest None (Some 90) w)) (float_of_Z 1234)
           (VFloat (fmul (float_of_Z 100000000) ten_pow_minus_6))
           (VFloat (fmul (float_of_Z 10000000) ten_pow_minus_6))
           TypeError
           (default_configuration _ _ _ _) eq_refl eq_refl eq_refl eq_refl
           (ex_intro _ (NInt 1234) (conj eq_refl eq_refl)) eq_refl).
Defined.

Lemma refused_bandwidth_stops_refresh_witness :
  let w := answering 20 (Exit0 Cases.text_bandwidth_text) 0 (-1) in
  let w1 := started w base_cmd (Some 90) in
  record_speedtest w = (Raise TypeError, w1) /\
  registry w1 = zero_registry /\
  speedtest_cache_timeout w1 = -1.
Proof.
  intros w w1.
  exact (refused_bandwidth_stops_refresh w 900 90
           (VInt 1234) (VFloat f1_5) (VFloat f10_2)
           (VStr "fastfastfastfastfastfastfastfast") (VInt 10000000) (VInt 1)
           w1 TypeError
           (default_configuration _ _ _ _) eq_refl eq_refl eq_refl).
Defined.

Lemma returned_refresh_status_witness :
  status measured = float_of_Z 1 \/ measured = all_zero.
Proof.
  exact (returned_refresh_status (answering 20 (Exit0 result_text) 0 (-1))
           900 90 measured
           (snd (record_speedtest (answering 20 (Exit0 result_text) 0 (-1))))
           (default_configuration _ _ _ _) eq_refl eq_refl).
Defined.

(** Three requests, 100, 400 and 900 after a refresh with a lifetime
    of 900. *)
Lemma calls_within_lifetime_are_cached_witness :
  let w1 := snd (record_speedtest (answering 20 (Exit0 result_text) 0 (-1))) in
  serve [100; 300; 500] w1 = with_clock (20 + 900) w1 /\
  registry (serve [100; 300; 500] w1) = measured.
Proof.
  intros w1.
  assert (G : Forall (fun gap => 0 <= gap) [100; 300; 500])
    by (repeat constructor; lia).
  assert (T : total [100; 300; 500] <= 900) by (cbn; lia).
  exact (calls_within_lifetime_are_cached
           (answering 20 (Exit0 result_text) 0 (-1)) 900 90 measured w1
           [100; 300; 500] (default_configuration _ _ _ _) eq_refl eq_refl G T).
Defined.

Lemma first_request_probes_witness :
  probes record_speedtest
    (with_clock (1000 + 5)
       (loaded no_env (always 20 (Exit0 result_text)) 1000)) = 1%nat.
Proof.
  apply (first_request_probes no_env (always 20 (Exit0 result_text)) 1000 5
           900 90).
  - split; reflexivity.
  - lia.
Defined.

Lemma overlapping_calls_all_probe_witness :
  List.length
    (spawned (snd (run_schedule (seq 0 3 ++ seq 0 3 ++ seq 0 3)%list
                     [AtEntry; AtEntry; AtEntry]
                     (answering 20 (Exit0 result_text) 0 (-1))))) = 3%nat.
Proof.
  exact (overlapping_calls_all_probe 3
           (answering 20 (Exit0 result_text) 0 (-1)) 900 90
           (default_configuration _ _ _ _) eq_refl).
Defined.

End MoreExamples.

(** * Examples at the edges *)

Section EdgeExamples.
Import Sample.
#[local] Existing Instance Edge.python.

(** C4 as stated fails: the output is a JSON object whose only key is
    ["error"], over arrays that go 100000 deep. [json.loads] raises
    [RecursionError] on it, which [is_json] does not catch, and
    [run_speedtest] raises where the claim has the all-zero tuple. *)
Lemma too_deep_output_raises :
  let w := answering 3 (ExitFail 2 Edge.deep_error_text) 0 (-1) in
  tool_output w base_cmd (Some 90) = Some Edge.deep_error_text /\
  json_loads Edge.deep_error_text = TooDeep /\
  fst (run_speedtest None (Some 90) w) = Raise RecursionError /\
  fst (run_speedtest None (Some 90) w) <> Ret zeros.
Proof.
  assert (J : json_loads Edge.deep_error_text = TooDeep)
    by (vm_compute; reflexivity).
  intros w.
  assert (R : fst (run_speedtest None (Some 90) w) = Raise RecursionError).
  { now rewrite (run_speedtest_too_deep w None (Some 90)
                   Edge.deep_error_text eq_refl J). }
  repeat split; trivial. rewrite R. discriminate.
Qed.

(** The same after a status of zero. *)
Example too_deep_output_after_success :
  fst (run_speedtest None (Some 90)
         (answering 20 (Exit0 Edge.deep_error_text) 0 (-1))) =
    Raise RecursionError.
Proof. vm_compute. reflexivity. Qed.

(** C10 as stated fails, twice. A result event from which all five
    fields are missing and that has an ["error"] key is answered with the
    all-zero tuple: nothing is raised. And a result event whose server
    identifier is [Infinity] makes [int] raise [OverflowError], which is
    none of [KeyError], [ValueError] and [TypeError]. *)
Lemma result_event_outside_the_three_errors :
  let w := answering 20 (Exit0 Edge.failed_result_text) 0 (-1) in
  let w' := answering 20 (Exit0 Edge.infinite_id_text) 0 (-1) in
  json_loads Edge.failed_result_text = Parsed Edge.failed_result_value /\
  py_getitem Edge.failed_result_value "type" = Ret (VStr "result") /\
  field Edge.failed_result_value "server" "id" = None /\
  fst (run_speedtest None (Some 90) w) = Ret zeros /\
  json_loads Edge.infinite_id_text = Parsed Edge.infinite_id_value /\
  event_of_type "result" Edge.infinite_id_value = true /\
  field Edge.infinite_id_value "server" "id" =
    Some (VFloat (S754_infinity false)) /\
  py_int (VFloat (S754_infinity false)) = Raise OverflowError /\
  fst (run_speedtest None (Some 90) w') = Raise OverflowError.
Proof. repeat split; vm_compute; reflexivity. Qed.

(** A bound of 2147484 seconds on the run, read from the environment:
    the tool is started, and [OverflowError] leaves the handler. *)
Example long_run_timeout_is_refused :
  let w := world (Edge.run_timeout_env "2147484")
             (always 20 (Exit0 result_text)) 0 (-1) in
  configured w 900 2147484 /\
  record_speedtest w =
    (Raise OverflowError, started w base_cmd (Some 2147484)) /\
  fst (record_speedtest
         (world (Edge.run_timeout_env "2147483")
            (always 20 (Exit0 result_text)) 0 (-1))) = Ret measured.
Proof. repeat split. Qed.

(** A cache lifetime of [10 ** 309]: the gauges take the measurement,
    then the call raises, and the deadline is where it was. *)
Example huge_lifetime_raises :
  let w := world (ttl_env Edge.huge) (always 20 (Exit0 result_text)) 0 (-1) in
  let w' := snd (record_speedtest w) in
  fst (record_speedtest w) = Raise OverflowError /\
  registry w' = measured /\
  speedtest_cache_timeout w' = -1.
Proof. repeat split; vm_compute; reflexivity. Qed.

End EdgeExamples.
